(** * SIEM anomaly dashboard ([dashboard.py]): severity bins, filters, metrics

    A shallow embedding of the data path of [dashboard.py]:
    - [load_data]: read the alert table, derive the [Severity] column with
      [pd.cut], sort by [Timestamp] descending, and turn every exception
      into an empty frame;
    - the filter expression of [main] (time cut-off, score range, severity
      membership, label choice);
    - the four dashboard metrics of [main].

    Scores are binary64 values (the primitive floats of the Standard
    Library), so that infinities and NaN behave as they do in pandas.
    Timestamps are [datetime64[ns]] cells: nanoseconds since the epoch in
    [Z], or [NaT].  The charts and the table of [main] are presentation
    and are not modelled. *)

From Stdlib Require Import Floats ZArith List Bool Ascii String Lia Sorted Permutation.
From Stdlib Require Uint63.
Import ListNotations.

Set Warnings "-inexact-float".

(** ** Ordering of binary64 values

    [FloatAxioms] specifies the primitive comparisons through [SFcompare]
    on [spec_float].  [SFcompare] is a lexicographic comparison; [sf_key]
    names the triple it compares, which turns order facts about floats into
    linear arithmetic. *)

Module Float64.

Local Open Scope Z_scope.

Definition key : Type := (Z * Z * Z)%type.

Definition sf_key (x : spec_float) : option key :=
  match x with
  | S754_nan => None
  | S754_infinity true => Some (-2, 0, 0)
  | S754_finite true m e => Some (-1, - e, - Z.pos m)
  | S754_zero _ => Some (0, 0, 0)
  | S754_finite false m e => Some (1, e, Z.pos m)
  | S754_infinity false => Some (2, 0, 0)
  end.

Definition key_lt (a b : key) : Prop :=
  let '(a1, a2, a3) := a in
  let '(b1, b2, b3) := b in
  a1 < b1 \/ (a1 = b1 /\ (a2 < b2 \/ (a2 = b2 /\ a3 < b3))).

Definition key_le (a b : key) : Prop := key_lt a b \/ a = b.

Definition fkey (x : float) : option key := sf_key (Prim2SF x).

Definition is_nan (x : float) : bool := PrimFloat.is_nan x.

End Float64.


Import Float64.

(** ** The frame

    [load_data] returns a frame whose columns are [Timestamp],
    [Sample_Index], [VAE_Score], [GNN_Label] and the derived [Severity].
    ([Time_Ago] is display text computed from the wall clock; no filter or
    metric reads it and it is left out.) *)

(** The categories of the [Severity] column, in the order of [labels=]. *)
Inductive Severity : Type := Low | Medium | High | Critical.

(** A [datetime64[ns]] cell: nanoseconds since the epoch, or [NaT]. *)
Definition datetime64 : Type := option Z.
Definition NaT : datetime64 := None.

(** A categorical cell: a category, or the missing value ([NaN]). *)
Definition category : Type := option Severity.

(** One row of the frame.  [GNN_Label] is the int64 column of the alert
    format. *)
Record Row : Type := mkRow {
  Timestamp : datetime64;
  Sample_Index : Z;
  VAE_Score : float;
  GNN_Label : Z;
  Severity_ : category
}.

Definition DataFrame : Type := list Row.

(** [pd.DataFrame()]: the frame without rows. *)
Definition empty_frame : DataFrame := [].

(** [df.empty]. *)
Definition empty (df : DataFrame) : bool :=
  match df with [] => true | _ => false end.

Definition Severity_eqb (a b : Severity) : bool :=
  match a, b with
  | Low, Low | Medium, Medium | High, High | Critical, Critical => true
  | _, _ => false
  end.

(** The position of a category among the categories; pandas stores a
    categorical cell as this code, and the missing value as [-1]. *)
Definition severity_code (s : Severity) : Z :=
  match s with Low => 0 | Medium => 1 | High => 2 | Critical => 3 end.

Definition category_code (c : category) : Z :=
  match c with Some s => severity_code s | None => -1 end.

(** The order of the ordered categorical: Low < Medium < High < Critical. *)
Definition severity_le (a b : Severity) : Prop :=
  (severity_code a <= severity_code b)%Z.

(** ** [pd.cut]: the severity bins (lines 66-71)

    [pd.cut(x, bins, labels)] with its defaults [right=True] and
    [include_lowest=False] computes [ids = bins.searchsorted(x, side='left')]
    and gives the missing value where [x] is NaN, [ids = len(bins)] or
    [ids = 0], and [labels[ids - 1]] elsewhere. *)

Definition BINS : list float := [0; 310; 311; 312; infinity]%float.
Definition LABELS : list Severity := [Low; Medium; High; Critical].

(** numpy's sort order on floats, in which NaN is above every number. *)
Definition np_lt (a b : float) : bool :=
  (a <? b)%float || (is_nan b && negb (is_nan a)).

(** [searchsorted(x, side='left')] on a sorted array: the number of
    entries strictly below [x]. *)
Fixpoint searchsorted (bins : list float) (x : float) : nat :=
  match bins with
  | [] => 0
  | b :: bins' => if np_lt b x then S (searchsorted bins' x) else 0
  end.

Definition cut {A : Type} (bins : list float) (labels : list A) (x : float)
  : option A :=
  let ids := searchsorted bins x in
  if is_nan x || Nat.eqb ids (List.length bins) || Nat.eqb ids 0
  then None
  else nth_error labels (ids - 1).

(** The severity [load_data] derives from a score. *)
Definition classify (score : float) : category := cut BINS LABELS score.

(** ** The alert file as pandas reads it

    [pd.read_csv] and [pd.to_datetime] are library code; the file is
    modelled by what they make of it.  A file is absent, has no columns,
    has a line with more fields than the header, or is a table in the
    alert format (columns in the order of [SAMPLE_DATA]).  A [Timestamp]
    field is an instant, blank, or text that [pd.to_datetime] rejects; a
    [VAE Score] field is a number or text, which makes the whole column
    non-numeric; a blank field, and a field that holds one of the
    strings [pd.read_csv] takes for a missing value (NaN, NA, N/A, n/a,
    null, None and the like), is the number NaN. *)

Inductive TimestampField : Type :=
| TsInstant (ns : Z)
| TsBlank
| TsText (text : string).

Inductive ScoreField : Type :=
| ScNumber (x : float)
| ScText (text : string).

Record Line : Type := mkLine {
  f_Timestamp : TimestampField;
  f_Sample_Index : Z;
  f_VAE_Score : ScoreField;
  f_GNN_Label : Z
}.

Inductive Source : Type :=
| Missing
| NoColumns
| Ragged (line : nat)
| Table (columns : list string) (lines : list Line).

(** The exceptions the body of [load_data] can raise. *)
Inductive Exception : Type :=
| FileNotFoundError
| EmptyDataError
| ParserError (line : nat)
| KeyError (key : string)
| DateParseError (text : string)
| TypeError (text : string).

(** Code that returns or raises. *)
Inductive Exc (A : Type) : Type :=
| Return (a : A)
| Raise (e : Exception).
Arguments Return {A} a.
Arguments Raise {A} e.

Definition bind {A B : Type} (c : Exc A) (k : A -> Exc B) : Exc B :=
  match c with
  | Return a => k a
  | Raise e => Raise e
  end.

Notation "x <- c ;; k" := (bind c (fun x => k))
  (at level 61, c at next level, right associativity).

Fixpoint mapM {A B : Type} (f : A -> Exc B) (l : list A) : Exc (list B) :=
  match l with
  | [] => Return []
  | a :: l' => b <- f a ;; bs <- mapM f l' ;; Return (b :: bs)
  end.

(** *** Column names: [df.columns.str.strip().str.replace(" ", "_")] *)

Definition is_space (c : Ascii.ascii) : bool :=
  let n := Ascii.nat_of_ascii c in
  Nat.eqb n 32 || (Nat.leb 9 n && Nat.leb n 13) || (Nat.leb 28 n && Nat.leb n 31).

Fixpoint lstrip (s : string) : string :=
  match s with
  | EmptyString => EmptyString
  | String c s' => if is_space c then lstrip s' else s
  end.

Fixpoint rstrip (s : string) : string :=
  match s with
  | EmptyString => EmptyString
  | String c s' =>
      match rstrip s' with
      | EmptyString => if is_space c then EmptyString else String c EmptyString
      | t => String c t
      end
  end.

Definition strip (s : string) : string := rstrip (lstrip s).

Fixpoint replace_spaces (s : string) : string :=
  match s with
  | EmptyString => EmptyString
  | String c s' =>
      String (if Ascii.eqb c " "%char then "_"%char else c) (replace_spaces s')
  end.

Definition clean_column_name (name : string) : string :=
  replace_spaces (strip name).

(** [df[key]] for the column the alert format has at position [pos]:
    [KeyError] unless the cleaned header names it [key]. *)
Definition getitem (columns : list string) (pos : nat) (key : string)
  : Exc unit :=
  match nth_error columns pos with
  | Some name => if String.eqb name key then Return tt else Raise (KeyError key)
  | None => Raise (KeyError key)
  end.

(** *** The steps of [load_data] *)

Definition read_csv (src : Source) : Exc (list string * list Line) :=
  match src with
  | Missing => Raise FileNotFoundError
  | NoColumns => Raise EmptyDataError
  | Ragged n => Raise (ParserError n)
  | Table columns lines => Return (columns, lines)
  end.

(** [pd.to_datetime] on one cell. *)
Definition to_datetime (f : TimestampField) : Exc datetime64 :=
  match f with
  | TsInstant ns => Return (Some ns)
  | TsBlank => Return NaT
  | TsText text => Raise (DateParseError text)
  end.

(** The score column as [pd.cut] needs it: numbers, or [TypeError]. *)
Definition to_numeric (f : ScoreField) : Exc float :=
  match f with
  | ScNumber x => Return x
  | ScText text => Raise (TypeError text)
  end.

(** [sort_values('Timestamp', ascending=False)]: latest first, [NaT] last.
    The order pandas leaves among equal timestamps is not specified; the
    insertion sort below keeps them in file order. *)
Definition not_before (a b : Row) : bool :=
  match Timestamp a, Timestamp b with
  | Some x, Some y => (y <=? x)%Z
  | Some _, None => true
  | None, Some _ => false
  | None, None => true
  end.

Fixpoint insert_row (r : Row) (df : DataFrame) : DataFrame :=
  match df with
  | [] => [r]
  | r' :: df' => if not_before r r' then r :: df else r' :: insert_row r df'
  end.

Definition sort_values (df : DataFrame) : DataFrame :=
  fold_right insert_row [] df.

(** The [try] block of [load_data] (lines 53-73). *)
Definition load_data_body (src : Source) : Exc DataFrame :=
  df <- read_csv src ;;
  let columns := map clean_column_name (fst df) in
  let lines := snd df in
  _ <- getitem columns 0 "Timestamp" ;;
  timestamps <- mapM (fun l => to_datetime (f_Timestamp l)) lines ;;
  _ <- getitem columns 2 "VAE_Score" ;;
  scores <- mapM (fun l => to_numeric (f_VAE_Score l)) lines ;;
  let rows :=
    map (fun '(l, t, s) =>
           mkRow t (f_Sample_Index l) s (f_GNN_Label l) (classify s))
        (combine (combine lines timestamps) scores) in
  Return (sort_values rows).

(** What the page shows besides the dashboard. *)
Inductive Message : Type :=
| Error_loading_data (e : Exception)
| No_data_available
| No_alerts_match_your_filters.

(** [load_data] (lines 50-77): the frame, and the [st.error] it shows
    when the body raised. *)
Definition load_data (src : Source) : DataFrame * list Message :=
  match load_data_body src with
  | Return df => (df, [])
  | Raise e => (empty_frame, [Error_loading_data e])
  end.

(** ** The sidebar and the filter expression of [main] (lines 92-149) *)

Inductive TimeRange : Type :=
| Last_15_minutes | Last_hour | Last_6_hours | Last_24_hours | All_time.

Inductive LabelFilter : Type := All | Normal_0 | Anomaly_1.

(** [timedelta] in nanoseconds. *)
Definition minutes (n : Z) : Z := (n * 60 * 1000000000)%Z.
Definition hours (n : Z) : Z := minutes (60 * n).

(** [df['Timestamp'].min()]: [NaT] cells are skipped; [NaT] when no cell
    is an instant. *)
Fixpoint min_timestamp (df : DataFrame) : datetime64 :=
  match df with
  | [] => NaT
  | r :: df' =>
      match Timestamp r, min_timestamp df' with
      | Some a, Some b => Some (Z.min a b)
      | Some a, None => Some a
      | None, m => m
      end
  end.

(** Lines 103-113. *)
Definition resolve_cutoff (now : Z) (df : DataFrame) (time_range : TimeRange)
  : datetime64 :=
  match time_range with
  | Last_15_minutes => Some (now - minutes 15)%Z
  | Last_hour => Some (now - hours 1)%Z
  | Last_6_hours => Some (now - hours 6)%Z
  | Last_24_hours => Some (now - hours 24)%Z
  | All_time => min_timestamp df
  end.

Definition category_eqb (a b : category) : bool :=
  match a, b with
  | Some x, Some y => Severity_eqb x y
  | None, None => true
  | _, _ => false
  end.

(** [Series.unique()]: the distinct cells in order of first appearance,
    the missing value among them when a cell is missing. *)
Fixpoint unique_from (seen : list category) (cells : list category)
  : list category :=
  match cells with
  | [] => []
  | c :: cells' =>
      if existsb (category_eqb c) seen then unique_from seen cells'
      else c :: unique_from (c :: seen) cells'
  end.

Definition unique (cells : list category) : list category :=
  unique_from [] cells.

(** The entries the severity multiselect offers, which are also its
    default selection: [df['Severity'].unique()]. *)
Definition severity_options (df : DataFrame) : list category :=
  unique (map Severity_ df).

(** The values the filter expression reads: [cutoff], [min_score],
    [max_score], [severity_filter] and [label_filter].  A selection is a
    list of entries of the multiselect, so it can hold the missing
    value. *)
Record Filters : Type := mkFilters {
  cutoff : datetime64;
  min_score : float;
  max_score : float;
  severity_filter : list category;
  label_filter : LabelFilter
}.

(** [df['Timestamp'] >= cutoff]; a comparison with [NaT] is false. *)
Definition ge_datetime (t c : datetime64) : bool :=
  match t, c with
  | Some a, Some b => (b <=? a)%Z
  | _, _ => false
  end.

(** [Series.isin(values)] on a categorical column; a missing cell is in
    [values] when [values] has a missing entry. *)
Definition isin (c : category) (values : list category) : bool :=
  existsb (category_eqb c) values.

(** The mask of lines 139-144. *)
Definition mask (f : Filters) (r : Row) : bool :=
  ge_datetime (Timestamp r) (cutoff f)
  && (min_score f <=? VAE_Score r)%float
  && (VAE_Score r <=? max_score f)%float
  && isin (Severity_ r) (severity_filter f).

(** The mask of lines 146-149. *)
Definition label_mask (l : LabelFilter) (r : Row) : bool :=
  match l with
  | All => true
  | Normal_0 => (GNN_Label r =? 0)%Z
  | Anomaly_1 => (GNN_Label r =? 1)%Z
  end.

(** [filtered_df] (lines 139-149). *)
Definition filtered_df (df : DataFrame) (f : Filters) : DataFrame :=
  filter (label_mask (label_filter f)) (filter (mask f) df).

(** ** The metrics of [main] (lines 152-163) *)

Definition float_of_nat (n : nat) : float :=
  PrimFloat.of_uint63 (Uint63.of_Z (Z.of_nat n)).

(** The sum of the cells, added from the left starting at 0.  (numpy
    adds fewer than eight cells this way and longer arrays in blocks; the
    results differ in rounding only, and what is proved of the mean's
    value either holds for every order of the additions or carries a
    tolerance.) *)
Definition sum (xs : list float) : float :=
  fold_left PrimFloat.add xs 0%float.

(** [Series.mean()]: NaN cells are skipped ([skipna=True]), the sum of
    the others is divided by their count. *)
Definition mean (xs : list float) : float :=
  let ys := filter (fun x => negb (is_nan x)) xs in
  (sum ys / float_of_nat (List.length ys))%float.

Record Metrics : Type := mkMetrics {
  Total_Alerts : nat;
  Filtered_Alerts : nat;
  Average_VAE_Score : float;
  Latest_Alert : option Row
}.

Definition metrics (df filtered : DataFrame) : Metrics :=
  {| Total_Alerts := List.length df;
     Filtered_Alerts := List.length filtered;
     Average_VAE_Score :=
       if negb (empty filtered) then mean (map VAE_Score filtered) else 0%float;
     Latest_Alert :=
       if negb (empty filtered) then nth_error filtered 0 else None |}.

(** ** One run of [main] (lines 79-90, 233-236)

    Streamlit runs [main] from the top on every rerun.  What one run
    leaves to the next is the file at [CSV_PATH] and the entry that
    [st.cache_data(ttl=REFRESH_INTERVAL)] keeps for [load_data]: its last
    result, returned again (with its messages) while it is younger than
    the time to live. *)

Definition REFRESH_INTERVAL : Z := 5.
Definition seconds (n : Z) : Z := (n * 1000000000)%Z.

Definition sample_line (ns index : Z) (score : float) (label : Z) : Line :=
  mkLine (TsInstant ns) index (ScNumber score) label.

Definition SAMPLE_DATA : Source :=
  Table ["Timestamp"; "Sample Index"; "VAE Score"; "GNN Label"]%string
  [ sample_line 1744215926985832000 2 310.7619 1;
    sample_line 1744215926986833000 3 310.91617 1;
    sample_line 1744215926988834000 4 311.12512 1;
    sample_line 1744215926988834000 5 311.36285 1;
    sample_line 1744215926989854000 6 311.65887 1;
    sample_line 1744215926991138000 7 311.98508 1;
    sample_line 1744216197548820000 0 310.5807800292969 1;
    sample_line 1744216198552840000 1 310.6549987792969 1;
    sample_line 1744216199558027000 2 310.76190185546875 1;
    sample_line 1744216200561436000 3 310.91619873046875 1;
    sample_line 1744216201637557000 4 311.1253356933594 1;
    sample_line 1744216202643728000 5 311.3636474609375 1;
    sample_line 1744216203647736000 6 311.6578063964844 1;
    sample_line 1744216891674115000 0 310.5807800292969 1;
    sample_line 1744216892676806000 1 310.6549987792969 1;
    sample_line 1744216893689518000 2 310.7618713378906 1;
    sample_line 1744216894693096000 3 310.9161376953125 1;
    sample_line 1744216895695667000 4 311.1254577636719 1;
    sample_line 1744216896697732000 5 311.3625183105469 1;
    sample_line 1744216897700866000 6 311.6585388183594 1 ].

(** Lines 43-47. *)
Definition initialize_sample_data (file : Source) : Source :=
  match file with
  | Missing => SAMPLE_DATA
  | _ => file
  end.

Definition Loaded : Type := (DataFrame * list Message)%type.

(** What outlives a run. *)
Record State : Type := mkState {
  file : Source;
  cache : option (Z * Loaded)
}.

(** [load_data] behind its cache, at instant [now]. *)
Definition cached_load_data (now : Z) (st : State) : Loaded * State :=
  let fresh :=
    let result := load_data (file st) in
    (result, mkState (file st) (Some (now, result))) in
  match cache st with
  | Some (stored, result) =>
      if (now <? stored + seconds REFRESH_INTERVAL)%Z then (result, st)
      else fresh
  | None => fresh
  end.

(** The state of the sidebar widgets. *)
Record Widgets : Type := mkWidgets {
  w_time_range : TimeRange;
  w_score_range : float * float;
  w_severity : list category;
  w_label : LabelFilter
}.

(** The widgets as a first run shows them (lines 96-136). *)
Definition default_widgets (df : DataFrame) : Widgets :=
  mkWidgets Last_hour (310.0, 312.0)%float (severity_options df) All.

Definition filters_of (now : Z) (df : DataFrame) (w : Widgets) : Filters :=
  mkFilters (resolve_cutoff now df (w_time_range w))
            (fst (w_score_range w)) (snd (w_score_range w))
            (w_severity w) (w_label w).

(** What a run publishes: the wait for data of lines 87-90, or the
    dashboard over the frame, the filtered frame and the metrics. *)
Inductive Page : Type :=
| Waiting (messages : list Message)
| Board (df filtered : DataFrame) (m : Metrics) (messages : list Message).

Definition main (now : Z) (w : Widgets) (st : State) : Page * State :=
  let st := mkState (initialize_sample_data (file st)) (cache st) in
  let '((df, messages), st') := cached_load_data now st in
  if empty df then (Waiting (messages ++ [No_data_available]), st')
  else
    let filtered := filtered_df df (filters_of now df w) in
    (Board df filtered (metrics df filtered)
       (messages ++
        if empty filtered then [No_alerts_match_your_filters] else []),
     st').

(** The frame and the metrics a page lets a reader query. *)
Definition published_frame (p : Page) : option DataFrame :=
  match p with
  | Waiting _ => None
  | Board df _ _ _ => Some df
  end.

Definition published_metrics (p : Page) : option Metrics :=
  match p with
  | Waiting _ => None
  | Board _ _ m _ => Some m
  end.

(** * Specification vocabulary and example data *)

(** The order [load_data] leaves its frame in: every row is not before
    the rows after it (latest first, [NaT] last). *)
Definition descending (df : DataFrame) : Prop :=
  StronglySorted (fun a b => not_before a b = true) df.

(** The [Severity] column holds the severity of the score. *)
Definition derived (df : DataFrame) : Prop :=
  Forall (fun r => Severity_ r = classify (VAE_Score r)) df.

(** [l1] is [l2] with some elements left out, the rest in order. *)
Inductive subsequence {A : Type} : list A -> list A -> Prop :=
| subsequence_nil : subsequence [] []
| subsequence_skip x l1 l2 : subsequence l1 l2 -> subsequence l1 (x :: l2)
| subsequence_keep x l1 l2 : subsequence l1 l2 -> subsequence (x :: l1) (x :: l2).


(** The filter in the words of its description: an event is kept when
    its timestamp is not before the cut-off, its score lies in the
    inclusive range, the severity of its score is in the severity set,
    and the label choice holds. *)
Definition matches (f : Filters) (r : Row) : bool :=
  ge_datetime (Timestamp r) (cutoff f)
  && ((min_score f <=? VAE_Score r)%float && (VAE_Score r <=? max_score f)%float)
  && isin (classify (VAE_Score r)) (severity_filter f)
  && label_mask (label_filter f) r.

(** A frame of three alerts, latest first; the last one has score 0 and
    so no severity. *)
Definition three_alerts : DataFrame :=
  [ mkRow (Some 3000%Z) 2%Z 311.5%float 1%Z (Some High);
    mkRow (Some 2000%Z) 1%Z 310.5%float 0%Z (Some Medium);
    mkRow (Some 1000%Z) 0%Z 0%float 1%Z None ].

Definition every_severity : list category :=
  [Some Low; Some Medium; Some High; Some Critical].

(** A frame with an alert of every severity, latest first, and one of
    score 0, which has none. *)
Definition five_alerts : DataFrame :=
  [ mkRow (Some 5000%Z) 0%Z 312.5%float 1%Z (Some Critical);
    mkRow (Some 4000%Z) 1%Z 311.5%float 1%Z (Some High);
    mkRow (Some 3000%Z) 2%Z 310.5%float 0%Z (Some Medium);
    mkRow (Some 2000%Z) 3%Z 300%float 0%Z (Some Low);
    mkRow (Some 1000%Z) 4%Z 0%float 1%Z None ].

(** [g] is at least as wide as [f]: its cut-off is not later, its score
    range and its severity set contain those of [f], and its label choice
    is that of [f] or [All]. *)
Definition wider (g f : Filters) : Prop :=
  ge_datetime (cutoff f) (cutoff g) = true /\
  (min_score g <=? min_score f)%float = true /\
  (max_score f <=? max_score g)%float = true /\
  (forall c, isin c (severity_filter f) = true ->
             isin c (severity_filter g) = true) /\
  (label_filter g = All \/ label_filter g = label_filter f).



Definition seven_scores : list float :=
  [310.58; 310.65; 310.76; 310.92; 311.13; 311.36; 311.66]%float.

(** score_range = [310, 312], every severity level, only anomalous
    alerts, cut-off at the epoch. *)
Definition scenario_filters : Filters :=
  mkFilters (Some 0%Z) 310%float 312%float every_severity Anomaly_1.

(** The scenario's alerts are anomalous and dated at or after the
    epoch. *)
Definition anomalous_since_epoch (r : Row) : Prop :=
  GNN_Label r = 1%Z /\ exists t, Timestamp r = Some t /\ (0 <= t)%Z.

Definition within (tolerance centre x : float) : bool :=
  (abs (x - centre) <=? tolerance)%float.

(** One frame of the scenario, one microsecond between alerts. *)
Definition seven_alerts : DataFrame :=
  [ mkRow (Some 7000%Z) 0%Z 310.58%float 1%Z (Some Medium);
    mkRow (Some 6000%Z) 1%Z 310.65%float 1%Z (Some Medium);
    mkRow (Some 5000%Z) 2%Z 310.76%float 1%Z (Some Medium);
    mkRow (Some 4000%Z) 3%Z 310.92%float 1%Z (Some Medium);
    mkRow (Some 3000%Z) 4%Z 311.13%float 1%Z (Some High);
    mkRow (Some 2000%Z) 5%Z 311.36%float 1%Z (Some High);
    mkRow (Some 1000%Z) 6%Z 311.66%float 1%Z (Some High) ].

(** The cache entry for [load_data] is absent or past its time to
    live at [now], so the call runs [load_data]. *)
Definition stale (now : Z) (st : State) : Prop :=
  match cache st with
  | None => True
  | Some (stored, _) => (stored + seconds REFRESH_INTERVAL <= now)%Z
  end.

(** Two runs: the file holds two alerts at the first run; six seconds
    later a third line whose score field is the text abc has been
    appended. *)
Definition alert_columns : list string :=
  ["Timestamp"; " Sample Index"; "VAE Score "; "GNN Label"]%string.

Definition good_file : Source :=
  Table alert_columns
    [ sample_line 1000000000 0 310.58 1;
      sample_line 2000000000 1 311.25 1 ].

Definition bad_file : Source :=
  Table alert_columns
    [ sample_line 1000000000 0 310.58 1;
      sample_line 2000000000 1 311.25 1;
      mkLine (TsInstant 3000000000) 2 (ScText "abc") 1 ].

Definition all_widgets : Widgets :=
  mkWidgets All_time (310.0, 312.0)%float every_severity All.

Definition first_run : Page * State :=
  main 4000000000 all_widgets (mkState good_file None).

Definition second_run : Page * State :=
  main 10000000000 all_widgets (mkState bad_file (cache (snd first_run))).

(** * Further vocabulary: the rest of [main] *)

(** A string of white space only. *)
Definition blank (s : string) : Prop :=
  Forall (fun c => is_space c = true) (list_ascii_of_string s).

(** The filter values [f] with another label choice. *)
Definition with_label (f : Filters) (l : LabelFilter) : Filters :=
  mkFilters (cutoff f) (min_score f) (max_score f) (severity_filter f) l.

(** The filter values of one run with another time range. *)
Definition with_time_range (w : Widgets) (t : TimeRange) : Widgets :=
  mkWidgets t (w_score_range w) (w_severity w) (w_label w).

(** The columns of the alert table (line 214). *)
Definition display_cols : list string :=
  ["Timestamp"; "Time_Ago"; "Sample_Index"; "VAE_Score"; "Severity";
   "GNN_Label"]%string.

(** [color_alert] (lines 220-222): one style per cell of the row. *)
Definition color_alert (row : Row) : list string :=
  let color :=
    if (GNN_Label row =? 1)%Z then "#FFCCCC"%string else "#CCFFCC"%string in
  map (fun _ => ("background-color: " ++ color)%string) display_cols.



(** The time ranges of the selectbox, from the shortest to the longest. *)
Definition time_range_rank (t : TimeRange) : nat :=
  match t with
  | Last_15_minutes => 0
  | Last_hour => 1
  | Last_6_hours => 2
  | Last_24_hours => 3
  | All_time => 4
  end.

(** The rows one run shows for a frame, a clock and the widgets. *)
Definition shown (now : Z) (df : DataFrame) (w : Widgets) : DataFrame :=
  filtered_df df (filters_of now df w).

(** The rows a label choice leaves out whatever is chosen besides
    [All]: the label is neither 0 nor 1. *)
Definition other_label (r : Row) : bool :=
  negb (GNN_Label r =? 0)%Z && negb (GNN_Label r =? 1)%Z.

(** The filter values whose severity selection is the multiselect's
    default for the frame. *)
Definition with_default_severity (f : Filters) (df : DataFrame) : Filters :=
  mkFilters (cutoff f) (min_score f) (max_score f) (severity_options df)
            (label_filter f).

(** The cache entry for [load_data] is younger than its time to live
    at [now], so the call returns it. *)
Definition fresh (now : Z) (st : State) : Prop :=
  match cache st with
  | None => False
  | Some (stored, _) => (now < stored + seconds REFRESH_INTERVAL)%Z
  end.


(** [df['VAE_Score'].min()] and [.max()], the bounds of the score slider
    (lines 118-119): NaN cells are skipped; NaN when no cell is a
    number. *)
Fixpoint score_min (xs : list float) : float :=
  match xs with
  | [] => nan
  | x :: xs' =>
      let m := score_min xs' in
      if is_nan x then m
      else if is_nan m then x
      else if (x <? m)%float then x else m
  end.

Fixpoint score_max (xs : list float) : float :=
  match xs with
  | [] => nan
  | x :: xs' =>
      let m := score_max xs' in
      if is_nan x then m
      else if is_nan m then x
      else if (m <? x)%float then x else m
  end.

(** The filter values with the score slider at its two bounds. *)
Definition with_full_score_range (f : Filters) (df : DataFrame) : Filters :=
  mkFilters (cutoff f)
            (score_min (map VAE_Score df)) (score_max (map VAE_Score df))
            (severity_filter f) (label_filter f).

(** The edges of a severity's bin: scores above the first and at most
    the second. *)
Definition bin_edges (v : Severity) : float * float :=
  match v with
  | Low => (0, 310)%float
  | Medium => (310, 311)%float
  | High => (311, 312)%float
  | Critical => (312, infinity)%float
  end.


(** * Properties *)

(** ** Facts about the order of binary64 values *)

Module Float64Facts.

Local Open Scope Z_scope.

Lemma SFcompare_key (x y : spec_float) (a b : key) :
  sf_key x = Some a -> sf_key y = Some b ->
  exists c, SFcompare x y = Some c /\
    match c with
    | Lt => key_lt a b
    | Eq => a = b
    | Gt => key_lt b a
    end.
Proof.
  destruct x as [sx|sx| |sx mx ex], y as [sy|sy| |sy my ey];
    try destruct sx; try destruct sy; cbn;
    intros Ha Hb; try discriminate;
    injection Ha as <-; injection Hb as <-;
    try (eexists; split; [reflexivity|]; cbn; try reflexivity; lia).
  - (* both negative and finite *)
    destruct (Z.compare_spec ex ey) as [He|He|He].
    + rewrite Pos.compare_cont_spec. cbn [Pos.switch_Eq].
      destruct (Pos.compare_spec mx my) as [Hm|Hm|Hm]; cbn;
        eexists; (split; [reflexivity|]); cbn; try (subst; reflexivity); lia.
    + eexists; split; [reflexivity|]; cbn; lia.
    + eexists; split; [reflexivity|]; cbn; lia.
  - (* both positive and finite *)
    destruct (Z.compare_spec ex ey) as [He|He|He].
    + rewrite Pos.compare_cont_spec. cbn [Pos.switch_Eq].
      destruct (Pos.compare_spec mx my) as [Hm|Hm|Hm]; cbn;
        eexists; (split; [reflexivity|]); cbn; try (subst; reflexivity); lia.
    + eexists; split; [reflexivity|]; cbn; lia.
    + eexists; split; [reflexivity|]; cbn; lia.
Qed.

Lemma SFcompare_nan_l (x y : spec_float) :
  sf_key x = None -> SFcompare x y = None.
Proof. destruct x as [[]|[]| |[] ? ?]; cbn; intros H; try discriminate; reflexivity. Qed.

Lemma SFcompare_nan_r (x y : spec_float) :
  sf_key y = None -> SFcompare x y = None.
Proof.
  destruct y as [[]|[]| |[] ? ?]; cbn; intros H; try discriminate;
    destruct x as [[]|[]| |[] ? ?]; reflexivity.
Qed.

Lemma key_lt_irrefl (a : key) : ~ key_lt a a.
Proof. destruct a as [[a1 a2] a3]; cbn; lia. Qed.

Lemma key_lt_asym (a b : key) : key_lt a b -> ~ key_lt b a.
Proof. destruct a as [[a1 a2] a3], b as [[b1 b2] b3]; cbn; lia. Qed.

Lemma key_lt_trans (a b c : key) : key_lt a b -> key_lt b c -> key_lt a c.
Proof.
  destruct a as [[a1 a2] a3], b as [[b1 b2] b3], c as [[c1 c2] c3]; cbn; lia.
Qed.

Lemma key_le_trans (a b c : key) : key_le a b -> key_le b c -> key_le a c.
Proof.
  intros [H1 | ->] [H2 | ->]; [left; eapply key_lt_trans; eauto | left; auto
                           | left; auto | right; auto].
Qed.

Lemma key_total (a b : key) : key_lt a b \/ a = b \/ key_lt b a.
Proof.
  destruct a as [[a1 a2] a3], b as [[b1 b2] b3]; cbn.
  destruct (Z.lt_total a1 b1) as [?|[?|?]]; [lia| |lia].
  destruct (Z.lt_total a2 b2) as [?|[?|?]]; [lia| |lia].
  destruct (Z.lt_total a3 b3) as [?|[?|?]]; [lia| |lia].
  right; left; subst; reflexivity.
Qed.

(** [x <? y] holds exactly when both are numbers and the key of [x] is
    below the key of [y]. *)
Lemma ltb_iff (x y : float) :
  (x <? y)%float = true <->
  exists a b, fkey x = Some a /\ fkey y = Some b /\ key_lt a b.
Proof.
  rewrite FloatAxioms.ltb_spec. unfold SFltb, fkey.
  destruct (sf_key (Prim2SF x)) as [a|] eqn:Ha.
  2:{ rewrite SFcompare_nan_l by assumption.
      split; [discriminate | intros (? & ? & ? & _); discriminate]. }
  destruct (sf_key (Prim2SF y)) as [b|] eqn:Hb.
  2:{ rewrite SFcompare_nan_r by assumption.
      split; [discriminate | intros (? & ? & _ & ? & _); discriminate]. }
  destruct (SFcompare_key _ _ _ _ Ha Hb) as (c & -> & Hc).
  split.
  - destruct c; try discriminate. intros _. exists a, b. auto.
  - intros (a' & b' & [= <-] & [= <-] & Hlt).
    destruct c; [subst; now apply key_lt_irrefl in Hlt | reflexivity
                | now apply key_lt_asym in Hlt].
Qed.

Lemma leb_iff (x y : float) :
  (x <=? y)%float = true <->
  exists a b, fkey x = Some a /\ fkey y = Some b /\ key_le a b.
Proof.
  rewrite FloatAxioms.leb_spec. unfold SFleb, fkey.
  destruct (sf_key (Prim2SF x)) as [a|] eqn:Ha.
  2:{ rewrite SFcompare_nan_l by assumption.
      split; [discriminate | intros (? & ? & ? & _); discriminate]. }
  destruct (sf_key (Prim2SF y)) as [b|] eqn:Hb.
  2:{ rewrite SFcompare_nan_r by assumption.
      split; [discriminate | intros (? & ? & _ & ? & _); discriminate]. }
  destruct (SFcompare_key _ _ _ _ Ha Hb) as (c & -> & Hc).
  split.
  - destruct c; try discriminate; intros _; exists a, b;
      (split; [reflexivity|split; [reflexivity|]]);
      [right; assumption | left; assumption].
  - intros (a' & b' & [= <-] & [= <-] & [Hlt | ->]).
    + destruct c; [reflexivity | reflexivity | now apply key_lt_asym in Hlt].
    + destruct c; [reflexivity | reflexivity | now apply key_lt_irrefl in Hc].
Qed.

(** NaN is the only value without a key. *)
Lemma is_nan_iff (x : float) : is_nan x = true <-> fkey x = None.
Proof.
  unfold is_nan, PrimFloat.is_nan, fkey. rewrite FloatAxioms.eqb_spec. unfold SFeqb.
  destruct (sf_key (Prim2SF x)) as [a|] eqn:Ha.
  - destruct (SFcompare_key _ _ _ _ Ha Ha) as (c & -> & Hc).
    destruct c; cbn; [split; discriminate | now apply key_lt_irrefl in Hc
                     | now apply key_lt_irrefl in Hc].
  - rewrite SFcompare_nan_l by assumption. cbn. split; auto.
Qed.

Lemma not_nan_key (x : float) : is_nan x = false -> exists a, fkey x = Some a.
Proof.
  intros H. destruct (fkey x) as [a|] eqn:Hk; [eauto|].
  apply is_nan_iff in Hk. congruence.
Qed.

Lemma ltb_trans (x y z : float) :
  (x <? y)%float = true -> (y <? z)%float = true -> (x <? z)%float = true.
Proof.
  rewrite !ltb_iff.
  intros (a & b & Ha & Hb & Hab) (b' & c & Hb' & Hc & Hbc).
  rewrite Hb in Hb'. injection Hb' as <-.
  exists a, c. eauto using key_lt_trans.
Qed.

Lemma leb_trans (x y z : float) :
  (x <=? y)%float = true -> (y <=? z)%float = true -> (x <=? z)%float = true.
Proof.
  rewrite !leb_iff.
  intros (a & b & Ha & Hb & Hab) (b' & c & Hb' & Hc & Hbc).
  rewrite Hb in Hb'. injection Hb' as <-.
  exists a, c. eauto using key_le_trans.
Qed.

(** For numbers, [y <? x] fails exactly when [x <=? y] holds. *)
Lemma ltb_false_leb (x y : float) :
  is_nan x = false -> is_nan y = false ->
  ((y <? x)%float = false <-> (x <=? y)%float = true).
Proof.
  intros Hx Hy.
  destruct (not_nan_key _ Hx) as (a & Ha), (not_nan_key _ Hy) as (b & Hb).
  rewrite leb_iff. split.
  - intros Hlt. exists a, b. split; [assumption|split; [assumption|]].
    destruct (key_total a b) as [?|[?|Hba]]; [left; auto | right; auto |].
    assert ((y <? x)%float = true) by (apply ltb_iff; eauto).
    congruence.
  - intros (a' & b' & Ha' & Hb' & Hle).
    rewrite Ha in Ha'. rewrite Hb in Hb'.
    injection Ha' as <-. injection Hb' as <-.
    destruct (y <? x)%float eqn:Hlt; [|reflexivity].
    apply ltb_iff in Hlt. destruct Hlt as (b' & a' & Hb' & Ha' & Hlt).
    rewrite Ha in Ha'. rewrite Hb in Hb'.
    injection Ha' as <-. injection Hb' as <-.
    destruct Hle as [Hle | ->];
      [now apply key_lt_asym in Hlt | now apply key_lt_irrefl in Hlt].
Qed.

Lemma ltb_nan_l (x y : float) : is_nan x = true -> (x <? y)%float = false.
Proof.
  intros H. apply is_nan_iff in H.
  destruct (x <? y)%float eqn:E; [|reflexivity].
  apply ltb_iff in E. destruct E as (? & ? & ? & _). congruence.
Qed.

Lemma ltb_nan_r (x y : float) : is_nan y = true -> (x <? y)%float = false.
Proof.
  intros H. apply is_nan_iff in H.
  destruct (x <? y)%float eqn:E; [|reflexivity].
  apply ltb_iff in E. destruct E as (? & ? & _ & ? & _). congruence.
Qed.

Lemma leb_nan_l (x y : float) : is_nan x = true -> (x <=? y)%float = false.
Proof.
  intros H. apply is_nan_iff in H.
  destruct (x <=? y)%float eqn:E; [|reflexivity].
  apply leb_iff in E. destruct E as (? & ? & ? & _). congruence.
Qed.

Lemma leb_nan_r (x y : float) : is_nan y = true -> (x <=? y)%float = false.
Proof.
  intros H. apply is_nan_iff in H.
  destruct (x <=? y)%float eqn:E; [|reflexivity].
  apply leb_iff in E. destruct E as (? & ? & _ & ? & _). congruence.
Qed.

Lemma ltb_not_nan (x y : float) :
  (x <? y)%float = true -> is_nan x = false /\ is_nan y = false.
Proof.
  intros H. split.
  - destruct (is_nan x) eqn:E; [|reflexivity].
    rewrite ltb_nan_l in H by assumption. discriminate.
  - destruct (is_nan y) eqn:E; [|reflexivity].
    rewrite ltb_nan_r in H by assumption. discriminate.
Qed.

(** Nothing is above [+inf]. *)
Lemma infinity_ltb (x : float) : (infinity <? x)%float = false.
Proof.
  destruct (infinity <? x)%float eqn:E; [|reflexivity].
  apply ltb_iff in E. destruct E as (a & b & Ha & Hb & Hlt).
  unfold fkey in *. injection Ha as <-.
  destruct (Prim2SF x) as [[]|[]| |[] ? ?]; cbn in Hb; try discriminate;
    injection Hb as <-; cbn in Hlt; lia.
Qed.

End Float64Facts.

Import Float64Facts.

(** ** The severity bins *)

Lemma bins_chain (s : float) :
  ((312 <? s)%float = true -> (311 <? s)%float = true) /\
  ((311 <? s)%float = true -> (310 <? s)%float = true) /\
  ((310 <? s)%float = true -> (0 <? s)%float = true).
Proof.
  repeat split; intros H; eapply ltb_trans; try eassumption; reflexivity.
Qed.

(** [classify] as a decision list over the bin edges. *)
Lemma classify_cases (s : float) :
  classify s =
  if is_nan s then None
  else if (312 <? s)%float then Some Critical
  else if (311 <? s)%float then Some High
  else if (310 <? s)%float then Some Medium
  else if (0 <? s)%float then Some Low
  else None.
Proof.
  destruct (bins_chain s) as (H1 & H2 & H3).
  unfold classify, cut, BINS. cbn [searchsorted List.length].
  unfold np_lt. rewrite (infinity_ltb s).
  destruct (is_nan s) eqn:Hn; [reflexivity|].
  cbn [negb andb orb]. rewrite !orb_false_r.
  destruct (312 <? s)%float eqn:E4.
  - rewrite (H1 eq_refl), (H2 (H1 eq_refl)), (H3 (H2 (H1 eq_refl))). reflexivity.
  - destruct (311 <? s)%float eqn:E3.
    + rewrite (H2 eq_refl), (H3 (H2 eq_refl)). reflexivity.
    + destruct (310 <? s)%float eqn:E2.
      * rewrite (H3 eq_refl). reflexivity.
      * destruct (0 <? s)%float eqn:E1; reflexivity.
Qed.

Lemma classify_nan (s : float) : is_nan s = true -> classify s = None.
Proof. intros H. rewrite classify_cases, H. reflexivity. Qed.

(** A score has a severity exactly when it is above the lowest edge. *)
Lemma classify_some_iff (s : float) :
  (exists v, classify s = Some v) <-> (0 <? s)%float = true.
Proof.
  destruct (bins_chain s) as (H1 & H2 & H3).
  rewrite classify_cases. split.
  - intros [v Hv]. destruct (is_nan s); [discriminate|].
    destruct (312 <? s)%float; [auto|].
    destruct (311 <? s)%float; [auto|].
    destruct (310 <? s)%float; [auto|].
    destruct (0 <? s)%float; [reflexivity|discriminate].
  - intros H. destruct (ltb_not_nan _ _ H) as [_ ->]. rewrite H.
    destruct (312 <? s)%float; [eauto|].
    destruct (311 <? s)%float; [eauto|].
    destruct (310 <? s)%float; eauto.
Qed.

Lemma classify_none_iff (s : float) :
  classify s = None <-> is_nan s = true \/ (s <=? 0)%float = true.
Proof.
  split.
  - intros H. destruct (is_nan s) eqn:Hn; [left; reflexivity|right].
    apply ltb_false_leb; [assumption|reflexivity|].
    destruct (0 <? s)%float eqn:E; [|reflexivity].
    apply classify_some_iff in E. destruct E as [v Hv]. congruence.
  - intros [H|H]; [now apply classify_nan|].
    destruct (classify s) as [v|] eqn:E; [|reflexivity].
    assert (Hs : (0 <? s)%float = true) by (apply classify_some_iff; eauto).
    destruct (ltb_not_nan _ _ Hs) as [_ Hn].
    apply (ltb_false_leb s 0) in H; [congruence|assumption|reflexivity].
Qed.

Lemma leb_edge (s k : float) :
  is_nan s = false -> is_nan k = false ->
  (s <=? k)%float = negb (k <? s)%float.
Proof.
  intros Hs Hk. destruct (k <? s)%float eqn:E; cbn.
  - destruct (s <=? k)%float eqn:E'; [|reflexivity].
    apply (ltb_false_leb s k Hs Hk) in E'. congruence.
  - now apply ltb_false_leb.
Qed.

(** C1 (as the code has it): the bins are open on the left and closed on
    the right.  A score s is Low when 0 < s <= 310, Medium when
    310 < s <= 311, High when 311 < s <= 312 and Critical when 312 < s; an
    edge belongs to the bucket below it, so classify(310.0) = Low,
    classify(309.999) = Low and classify(312.0) = High. *)
Theorem classify_bins (s : float) :
  (classify s = Some Low <->
     (0 <? s)%float = true /\ (s <=? 310)%float = true) /\
  (classify s = Some Medium <->
     (310 <? s)%float = true /\ (s <=? 311)%float = true) /\
  (classify s = Some High <->
     (311 <? s)%float = true /\ (s <=? 312)%float = true) /\
  (classify s = Some Critical <-> (312 <? s)%float = true) /\
  classify 310.0 = Some Low /\
  classify 309.999 = Some Low /\
  classify 312.0 = Some High.
Proof.
  destruct (bins_chain s) as (H1 & H2 & H3).
  rewrite classify_cases.
  destruct (is_nan s) eqn:Hn.
  - rewrite !(ltb_nan_r _ s Hn), !(leb_nan_l s _ Hn).
    repeat split; try discriminate; try reflexivity;
      intros [? ?]; discriminate.
  - rewrite !(leb_edge s _ Hn) by reflexivity.
    destruct (312 <? s)%float.
    + rewrite (H1 eq_refl) in *. rewrite (H2 eq_refl) in *.
      rewrite (H3 eq_refl). cbn.
      repeat split; try discriminate; try reflexivity;
        intros [? ?]; discriminate.
    + destruct (311 <? s)%float.
      * rewrite (H2 eq_refl) in *. rewrite (H3 eq_refl). cbn.
        repeat split; try discriminate; try reflexivity;
          intros [? ?]; discriminate.
      * destruct (310 <? s)%float.
        -- rewrite (H3 eq_refl). cbn.
           repeat split; try discriminate; try reflexivity;
             intros [? ?]; discriminate.
        -- destruct (0 <? s)%float; cbn;
             repeat split; try discriminate; try reflexivity;
               intros [? ?]; discriminate.
Qed.

(** C1, the claim's boundary values: 310.0 is Low, not Medium, and 312.0
    is High, not Critical. *)
Lemma classify_edges_counterexample :
  classify 310.0 = Some Low /\ classify 310.0 <> Some Medium /\
  classify 312.0 = Some High /\ classify 312.0 <> Some Critical.
Proof. repeat split; try reflexivity; discriminate. Qed.

(** C2 (as the code has it): [classify] raises nothing and gives a
    severity exactly to the scores above 0, finite or +inf, +inf being
    Critical; a score that is NaN, -inf or at most 0 gets the missing
    value. *)
Theorem classify_defined (s : float) :
  ((exists v, classify s = Some v) <-> (0 <? s)%float = true) /\
  (classify s = None <-> is_nan s = true \/ (s <=? 0)%float = true) /\
  classify infinity = Some Critical /\
  classify neg_infinity = None /\
  classify nan = None.
Proof.
  split; [apply classify_some_iff|].
  split; [apply classify_none_iff|].
  repeat split; reflexivity.
Qed.

(** C2, the claim at score 0 (and below): no severity is returned. *)
Lemma classify_zero_counterexample :
  classify 0 = None /\ classify (-1) = None /\
  ~ (exists v, classify 0 = Some v).
Proof.
  repeat split; try reflexivity. intros [v Hv]. discriminate.
Qed.

(** C8: a higher score never gets a lower severity.  For s1 < s2 the
    category code of classify(s1) is at most that of classify(s2) (codes
    0..3 for Low..Critical; the missing value, which only scores at or
    below 0 get, has pandas' code -1), and when s1 has a severity, s2 has
    one that is at least as high. *)
Theorem classify_monotone (s1 s2 : float) :
  (s1 <? s2)%float = true ->
  (category_code (classify s1) <= category_code (classify s2))%Z /\
  (forall v1, classify s1 = Some v1 ->
     exists v2, classify s2 = Some v2 /\ severity_le v1 v2).
Proof.
  intros Hlt.
  assert (Hup : forall k, (k <? s1)%float = true -> (k <? s2)%float = true)
    by (intros k Hk; eapply ltb_trans; eassumption).
  destruct (ltb_not_nan _ _ Hlt) as [Hn1 Hn2].
  rewrite !classify_cases, Hn1, Hn2.
  destruct (312 <? s1)%float eqn:A4.
  { rewrite (Hup _ A4). split; [cbn; lia|].
    intros v1 [= <-]. eexists; split; [reflexivity|unfold severity_le; cbn; lia]. }
  destruct (311 <? s1)%float eqn:A3.
  { rewrite (Hup _ A3).
    destruct (312 <? s2)%float; (split; [cbn; lia|]);
      intros v1 [= <-]; eexists; (split; [reflexivity|]);
      unfold severity_le; cbn; lia. }
  destruct (310 <? s1)%float eqn:A2.
  { rewrite (Hup _ A2).
    destruct (312 <? s2)%float; [|destruct (311 <? s2)%float];
      (split; [cbn; lia|]);
      intros v1 [= <-]; eexists; (split; [reflexivity|]);
      unfold severity_le; cbn; lia. }
  destruct (0 <? s1)%float eqn:A1.
  { rewrite (Hup _ A1).
    destruct (312 <? s2)%float;
      [|destruct (311 <? s2)%float; [|destruct (310 <? s2)%float]];
      (split; [cbn; lia|]);
      intros v1 [= <-]; eexists; (split; [reflexivity|]);
      unfold severity_le; cbn; lia. }
  split; [|intros v1; discriminate].
  destruct (312 <? s2)%float;
    [|destruct (311 <? s2)%float;
      [|destruct (310 <? s2)%float; [|destruct (0 <? s2)%float]]];
    cbn; lia.
Qed.

Lemma classify_monotone_witness :
  (310.5 <? 311.5)%float = true /\
  (category_code (classify 310.5) <= category_code (classify 311.5))%Z /\
  (forall v1, classify 310.5 = Some v1 ->
     exists v2, classify 311.5 = Some v2 /\ severity_le v1 v2).
Proof.
  split; [reflexivity|]. apply (classify_monotone 310.5 311.5). reflexivity.
Defined.

(** ** Frames: order, sub-sequences, sorting *)

Lemma subsequence_refl {A : Type} (l : list A) : subsequence l l.
Proof. induction l; constructor; assumption. Qed.

Lemma subsequence_trans {A : Type} (l1 l2 l3 : list A) :
  subsequence l1 l2 -> subsequence l2 l3 -> subsequence l1 l3.
Proof.
  intros H12 H23. revert l1 H12.
  induction H23 as [|x l2 l3 H IH|x l2 l3 H IH]; intros l1 H12.
  - assumption.
  - constructor. auto.
  - inversion H12; subst;
      [apply subsequence_skip | apply subsequence_keep]; auto.
Qed.

Lemma filter_subsequence {A : Type} (p : A -> bool) (l : list A) :
  subsequence (filter p l) l.
Proof.
  induction l as [|x l IH]; cbn; [constructor|].
  destruct (p x); constructor; assumption.
Qed.

Lemma subsequence_In {A : Type} (l1 l2 : list A) (x : A) :
  subsequence l1 l2 -> In x l1 -> In x l2.
Proof.
  induction 1; cbn; intros Hin; [assumption | right; auto |].
  destruct Hin; [left; assumption | right; auto].
Qed.

Lemma subsequence_length {A : Type} (l1 l2 : list A) :
  subsequence l1 l2 -> (List.length l1 <= List.length l2)%nat.
Proof. induction 1; cbn; lia. Qed.

Lemma subsequence_descending (l1 l2 : DataFrame) :
  subsequence l1 l2 -> descending l2 -> descending l1.
Proof.
  unfold descending. induction 1 as [|x l1 l2 H IH|x l1 l2 H IH]; intros Hs.
  - constructor.
  - inversion Hs; subst. auto.
  - inversion Hs as [|? ? Hs' Hall]; subst. constructor; [auto|].
    rewrite Forall_forall in *. intros y Hy. apply Hall.
    eapply subsequence_In; eassumption.
Qed.

Lemma filter_filter {A : Type} (p q : A -> bool) (l : list A) :
  filter p (filter q l) = filter (fun x => q x && p x) l.
Proof.
  induction l as [|x l IH]; cbn; [reflexivity|].
  destruct (q x); cbn; [destruct (p x)|]; congruence.
Qed.

Lemma filter_ext_Forall {A : Type} (p q : A -> bool) (l : list A) :
  Forall (fun x => p x = q x) l -> filter p l = filter q l.
Proof.
  induction 1 as [|x l Hx _ IH]; cbn; [reflexivity|].
  rewrite Hx, IH. reflexivity.
Qed.

Lemma filter_all {A : Type} (p : A -> bool) (l : list A) :
  Forall (fun x => p x = true) l -> filter p l = l.
Proof.
  induction 1 as [|x l Hx _ IH]; cbn; [reflexivity|].
  rewrite Hx, IH. reflexivity.
Qed.

Lemma filter_mono {A : Type} (p q : A -> bool) (l : list A) :
  (forall x, In x l -> p x = true -> q x = true) ->
  subsequence (filter p l) (filter q l).
Proof.
  induction l as [|x l IH]; cbn; intros H; [constructor|].
  assert (IH' : subsequence (filter p l) (filter q l)) by (apply IH; auto).
  destruct (p x) eqn:Hp.
  - rewrite (H x (or_introl eq_refl) Hp). apply subsequence_keep. assumption.
  - destruct (q x); [apply subsequence_skip|]; assumption.
Qed.









(** ** The frame of [load_data] *)




(** The sample file loads: twenty alerts, latest first, every score in
    the Medium or the High bin; and a first run on a missing file writes
    the sample file and shows them all. *)
Example sample_data_loads :
  snd (load_data SAMPLE_DATA) = [] /\
  List.length (fst (load_data SAMPLE_DATA)) = 20%nat /\
  nth_error (fst (load_data SAMPLE_DATA)) 0 =
    Some (mkRow (Some 1744216897700866000%Z) 6%Z 311.6585388183594%float 1%Z
                (Some High)) /\
  severity_options (fst (load_data SAMPLE_DATA)) = [Some High; Some Medium].
Proof. repeat split; reflexivity. Qed.

Example first_run_on_missing_file :
  let '(page, st) :=
    main 1744216900000000000 (mkWidgets Last_hour (310.0, 312.0)%float
                                 [Some High; Some Medium] All)
         (mkState Missing None) in
  file st = SAMPLE_DATA /\
  option_map Total_Alerts (published_metrics page) = Some 20%nat /\
  option_map Filtered_Alerts (published_metrics page) = Some 20%nat.
Proof. repeat split; reflexivity. Qed.

(** ** The filter *)


Lemma filtered_df_filter (df : DataFrame) (f : Filters) :
  filtered_df df f =
  filter (fun r => mask f r && label_mask (label_filter f) r) df.
Proof. unfold filtered_df. apply filter_filter. Qed.

Lemma filtered_df_matches (df : DataFrame) (f : Filters) :
  derived df -> filtered_df df f = filter (matches f) df.
Proof.
  intros Hd. rewrite filtered_df_filter. apply filter_ext_Forall.
  unfold derived in Hd. rewrite Forall_forall in *. intros r Hr.
  unfold mask, matches. rewrite (Hd r Hr).
  rewrite <- !andb_assoc. reflexivity.
Qed.



Lemma three_alerts_derived : derived three_alerts.
Proof. repeat constructor. Qed.


(** ** Widening a filter *)

Lemma ge_datetime_trans (t c d : datetime64) :
  ge_datetime t c = true -> ge_datetime c d = true -> ge_datetime t d = true.
Proof.
  destruct t, c, d; cbn; try discriminate. rewrite !Z.leb_le. lia.
Qed.

Lemma wider_keeps (g f : Filters) (r : Row) :
  wider g f ->
  mask f r && label_mask (label_filter f) r = true ->
  mask g r && label_mask (label_filter g) r = true.
Proof.
  intros (Ht & Hmin & Hmax & Hsev & Hlab). unfold mask.
  rewrite !andb_true_iff. intros ((((H1 & H2) & H3) & H4) & H5).
  repeat split.
  - eapply ge_datetime_trans; eassumption.
  - eapply leb_trans; eassumption.
  - eapply leb_trans; eassumption.
  - auto.
  - destruct Hlab as [-> | ->]; [reflexivity|assumption].
Qed.

(** C7: when F2 is at least as wide as F1 in every dimension, every row
    that F1 keeps F2 keeps too, in the same order, so the filtered count
    under F2 is at least the filtered count under F1. *)
Theorem wider_filter_count (df : DataFrame) (f1 f2 : Filters) :
  wider f2 f1 ->
  subsequence (filtered_df df f1) (filtered_df df f2) /\
  (forall r, In r (filtered_df df f1) -> In r (filtered_df df f2)) /\
  (Filtered_Alerts (metrics df (filtered_df df f1))
   <= Filtered_Alerts (metrics df (filtered_df df f2)))%nat.
Proof.
  intros Hw.
  assert (Hs : subsequence (filtered_df df f1) (filtered_df df f2)).
  { rewrite !filtered_df_filter. apply filter_mono.
    intros r _. apply wider_keeps. assumption. }
  split; [assumption|]. split.
  - intros r. apply subsequence_In. assumption.
  - cbn. apply subsequence_length. assumption.
Qed.

Lemma wider_filter_count_witness :
  wider (mkFilters (Some 1000%Z) 0%float 312%float every_severity All)
        (mkFilters (Some 2000%Z) 310%float 311%float [Some Medium] Normal_0) /\
  (Filtered_Alerts
     (metrics three_alerts
        (filtered_df three_alerts
           (mkFilters (Some 2000%Z) 310%float 311%float [Some Medium] Normal_0)))
   <= Filtered_Alerts
        (metrics three_alerts
           (filtered_df three_alerts
              (mkFilters (Some 1000%Z) 0%float 312%float every_severity All))))%nat.
Proof.
  assert (Hw : wider (mkFilters (Some 1000%Z) 0%float 312%float every_severity All)
                     (mkFilters (Some 2000%Z) 310%float 311%float [Some Medium] Normal_0)).
  { repeat split; try reflexivity; [|left; reflexivity].
    intros [[]|]; cbn; intros H; try discriminate; reflexivity. }
  split; [exact Hw|].
  apply (wider_filter_count three_alerts _ _ Hw).
Defined.

(** ** Rows without a severity *)

Lemma category_eqb_eq (a b : category) : category_eqb a b = true <-> a = b.
Proof.
  destruct a as [[]|], b as [[]|]; cbn; split; intros H;
    try reflexivity; try discriminate.
Qed.

Lemma isin_In (c : category) (values : list category) :
  isin c values = true <-> In c values.
Proof.
  unfold isin. rewrite existsb_exists. split.
  - intros (x & Hx & He). apply category_eqb_eq in He. now subst.
  - intros H. exists c. split; [assumption|]. now apply category_eqb_eq.
Qed.

Lemma leb_not_nan (x y : float) :
  (x <=? y)%float = true -> is_nan x = false /\ is_nan y = false.
Proof.
  intros H. split.
  - destruct (is_nan x) eqn:E; [|reflexivity].
    rewrite leb_nan_l in H by assumption. discriminate.
  - destruct (is_nan y) eqn:E; [|reflexivity].
    rewrite leb_nan_r in H by assumption. discriminate.
Qed.

Lemma filtered_df_In (df : DataFrame) (f : Filters) (r : Row) :
  In r (filtered_df df f) <->
  In r df /\ mask f r = true /\ label_mask (label_filter f) r = true.
Proof.
  rewrite filtered_df_filter, filter_In, andb_true_iff. tauto.
Qed.

Lemma filtered_df_not_nan (df : DataFrame) (f : Filters) (r : Row) :
  In r (filtered_df df f) -> is_nan (VAE_Score r) = false.
Proof.
  rewrite filtered_df_In. unfold mask. rewrite !andb_true_iff.
  intros (_ & (((_ & H) & _) & _) & _). now apply leb_not_nan in H.
Qed.

(** C9 (as the code has it): a row whose score is NaN or at most 0 has
    no severity.  A row with a NaN score is in no filtered frame.  A row
    with a score at most 0 is in no filtered frame whose severity
    selection holds severity levels only, in particular when exactly the
    four levels are selected; it is in the filtered frame exactly when it
    is in the frame, the selection holds the missing value, and the time,
    score and label tests hold. *)
Theorem no_severity_rows (r : Row) :
  Severity_ r = classify (VAE_Score r) ->
  is_nan (VAE_Score r) = true \/ (VAE_Score r <=? 0)%float = true ->
  Severity_ r = None /\
  (forall df f, is_nan (VAE_Score r) = true -> ~ In r (filtered_df df f)) /\
  (forall df f, ~ In None (severity_filter f) -> ~ In r (filtered_df df f)) /\
  (forall df c lo hi l,
     ~ In r (filtered_df df (mkFilters c lo hi every_severity l))) /\
  (forall df f,
     In r (filtered_df df f) <->
     In r df /\
     In None (severity_filter f) /\
     ge_datetime (Timestamp r) (cutoff f) = true /\
     (min_score f <=? VAE_Score r)%float = true /\
     (VAE_Score r <=? max_score f)%float = true /\
     label_mask (label_filter f) r = true).
Proof.
  intros Hd Hs.
  assert (Hnone : Severity_ r = None)
    by (rewrite Hd; now apply classify_none_iff).
  assert (Hiff : forall df f,
             In r (filtered_df df f) <->
             In r df /\
             In None (severity_filter f) /\
             ge_datetime (Timestamp r) (cutoff f) = true /\
             (min_score f <=? VAE_Score r)%float = true /\
             (VAE_Score r <=? max_score f)%float = true /\
             label_mask (label_filter f) r = true).
  { intros df f. rewrite filtered_df_In. unfold mask.
    rewrite !andb_true_iff, Hnone, isin_In. tauto. }
  split; [assumption|]. split; [|split; [|split]].
  - intros df f Hn H. apply filtered_df_not_nan in H. congruence.
  - intros df f Hno H. apply Hiff in H. tauto.
  - intros df c lo hi l H. apply Hiff in H. destruct H as (_ & H & _).
    cbn in H. repeat destruct H as [H|H]; try discriminate; assumption.
  - exact Hiff.
Qed.

Lemma no_severity_rows_witness :
  Severity_ (mkRow (Some 1000%Z) 4%Z 0%float 1%Z None) = None /\
  ~ In (mkRow (Some 1000%Z) 4%Z 0%float 1%Z None)
       (filtered_df five_alerts
          (filters_of 9000 five_alerts
             (mkWidgets All_time (0.0, 312.0)%float
                [Some Critical; Some High; Some Medium; Some Low] All))).
Proof.
  pose proof (no_severity_rows (mkRow (Some 1000%Z) 4%Z 0%float 1%Z None)
                eq_refl (or_intror eq_refl)) as (H1 & _ & H3 & _).
  split; [exact H1 | apply H3].
  cbn. intros H. repeat destruct H as [H|H]; try discriminate; assumption.
Defined.

(** C9, the claim on the frames [three_alerts] and [five_alerts], with
    values the widgets give: "All time", the score slider drawn down to
    0.0, and the multiselect left at its default, which holds the missing
    value, on [five_alerts] beside all four severity levels.  The alert of
    score 0 is in the filtered frame. *)
Lemma no_severity_row_kept_counterexample :
  classify 0 = None /\
  severity_options three_alerts = [Some High; Some Medium; None] /\
  w_severity (default_widgets three_alerts) = [Some High; Some Medium; None] /\
  In (mkRow (Some 1000%Z) 0%Z 0%float 1%Z None)
     (filtered_df three_alerts
        (filters_of 4000 three_alerts
           (mkWidgets All_time (0.0, 312.0)%float
              (severity_options three_alerts) All))) /\
  severity_options five_alerts
  = [Some Critical; Some High; Some Medium; Some Low; None] /\
  In (mkRow (Some 1000%Z) 4%Z 0%float 1%Z None)
     (filtered_df five_alerts
        (filters_of 9000 five_alerts
           (mkWidgets All_time (0.0, 312.0)%float
              (severity_options five_alerts) All))).
Proof.
  split; [reflexivity|]. split; [reflexivity|]. split; [reflexivity|].
  split; [cbn; right; right; left; reflexivity|].
  split; [reflexivity|].
  cbn. right; right; right; left; reflexivity.
Qed.

(** ** The metrics *)






(** ** The scenario of seven alerts *)

Lemma scenario_matches (r : Row) :
  In (VAE_Score r) seven_scores -> anomalous_since_epoch r ->
  matches scenario_filters r = true.
Proof.
  intros Hs (Hl & t & Ht & Hpos). unfold matches, scenario_filters.
  cbn [cutoff min_score max_score severity_filter label_filter label_mask].
  rewrite Ht, Hl. cbn [ge_datetime Z.eqb Pos.eqb].
  replace (0 <=? t)%Z with true by (symmetry; now apply Z.leb_le).
  cbn in Hs.
  repeat (destruct Hs as [<- | Hs]; [reflexivity|]). destruct Hs.
Qed.

(** C4 (as the code has it): for a frame of exactly seven alerts with
    the scores 310.58, 310.65, 310.76, 310.92, 311.13, 311.36, 311.66,
    all anomalous and dated since the epoch, the scenario's filter
    returns all seven alerts, the filtered count is 7, and the mean score
    is within 0.01 of 311.01 (it is 311.0086 to four places). *)
Theorem seven_alerts_scenario (df : DataFrame) :
  map VAE_Score df = seven_scores ->
  derived df ->
  Forall anomalous_since_epoch df ->
  let filtered := filtered_df df scenario_filters in
  let m := metrics df filtered in
  filtered = df /\
  Total_Alerts m = 7%nat /\
  Filtered_Alerts m = 7%nat /\
  Average_VAE_Score m = mean seven_scores /\
  within 0.01 311.01 (Average_VAE_Score m) = true /\
  within 0.0001 311.0086 (Average_VAE_Score m) = true.
Proof.
  intros Hs Hd Ha filtered m.
  assert (Hf : filtered = df).
  { subst filtered. rewrite (filtered_df_matches df _ Hd).
    apply filter_all. rewrite Forall_forall in *. intros r Hr.
    apply scenario_matches; [|auto].
    rewrite <- Hs. now apply in_map. }
  assert (Hlen : List.length df = 7%nat)
    by (rewrite <- (length_map VAE_Score), Hs; reflexivity).
  subst m. rewrite Hf. unfold metrics.
  cbn [Total_Alerts Filtered_Alerts Average_VAE_Score].
  assert (He : empty df = false)
    by (destruct df; [discriminate Hlen|reflexivity]).
  rewrite He, Hs. cbn [negb].
  repeat split; try assumption; reflexivity.
Qed.

Lemma seven_alerts_scenario_witness :
  filtered_df seven_alerts scenario_filters = seven_alerts /\
  within 0.01 311.01
    (Average_VAE_Score
       (metrics seven_alerts (filtered_df seven_alerts scenario_filters)))
  = true.
Proof.
  assert (H : Forall anomalous_since_epoch seven_alerts).
  { repeat constructor; cbn; eexists; (split; [reflexivity|]); lia. }
  pose proof (seven_alerts_scenario seven_alerts eq_refl
                ltac:(repeat constructor) H) as (H1 & _ & _ & _ & H5 & _).
  split; [exact H1 | exact H5].
Defined.

(** C4, the claim's mean on the frame [seven_alerts]: all seven alerts
    are returned and counted, but their mean score, 311.0086, is not
    within 0.01 of 310.99. *)
Lemma seven_alerts_mean_counterexample :
  filtered_df seven_alerts scenario_filters = seven_alerts /\
  Filtered_Alerts
    (metrics seven_alerts (filtered_df seven_alerts scenario_filters))
  = 7%nat /\
  within 0.01 310.99
    (Average_VAE_Score
       (metrics seven_alerts (filtered_df seven_alerts scenario_filters)))
  = false.
Proof. repeat split; reflexivity. Qed.

(** ** Failing loads *)

Lemma mapM_raises {A B : Type} (f : A -> Exc B) (l : list A) (a : A) :
  In a l -> (exists e, f a = Raise e) -> exists e, mapM f l = Raise e.
Proof.
  induction l as [|x l IH]; cbn; intros Hin Hr; [contradiction|].
  destruct (f x) as [b|e] eqn:Hx; cbn; [|eauto].
  destruct Hin as [->|Hin].
  - destruct Hr as [e He]. congruence.
  - destruct (IH Hin Hr) as [e ->]. cbn. eauto.
Qed.

Lemma bad_timestamp_raises (columns : list string) (lines : list Line)
      (l : Line) (text : string) :
  In l lines -> f_Timestamp l = TsText text ->
  exists e, load_data_body (Table columns lines) = Raise e.
Proof.
  intros Hin Ht. unfold load_data_body. cbn [read_csv bind fst snd].
  destruct (getitem _ 0 _); cbn [bind]; [|eauto].
  destruct (mapM_raises (fun l => to_datetime (f_Timestamp l)) lines l Hin)
    as [e ->]; [rewrite Ht; cbn; eauto|]. cbn. eauto.
Qed.

Lemma bad_score_raises (columns : list string) (lines : list Line)
      (l : Line) (text : string) :
  In l lines -> f_VAE_Score l = ScText text ->
  exists e, load_data_body (Table columns lines) = Raise e.
Proof.
  intros Hin Ht. unfold load_data_body. cbn [read_csv bind fst snd].
  destruct (getitem _ 0 _); cbn [bind]; [|eauto].
  destruct (mapM _ lines); cbn [bind]; [|eauto].
  destruct (getitem _ 2 _); cbn [bind]; [|eauto].
  destruct (mapM_raises (fun l => to_numeric (f_VAE_Score l)) lines l Hin)
    as [e ->]; [rewrite Ht; cbn; eauto|]. cbn. eauto.
Qed.

Lemma load_data_raised (src : Source) (e : Exception) :
  load_data_body src = Raise e ->
  load_data src = (empty_frame, [Error_loading_data e]).
Proof. unfold load_data. intros ->. reflexivity. Qed.

(** C10: [load_data] always returns a frame.  When its body returns, it
    returns that frame; when its body raises, whatever the exception (a
    missing or empty file, a malformed line, an unparsable timestamp or
    score, a missing column), it returns the empty frame and shows the
    exception as a message.  The frame returned is the same for every
    failure, so a caller can tell a failure only by emptiness. *)
Theorem load_data_never_raises (src : Source) :
  (forall df, load_data_body src = Return df -> load_data src = (df, [])) /\
  (forall e, load_data_body src = Raise e ->
     load_data src = (empty_frame, [Error_loading_data e])) /\
  ((exists df, load_data_body src = Return df) \/
   (exists e, load_data_body src = Raise e /\
              fst (load_data src) = empty_frame /\
              empty (fst (load_data src)) = true)) /\
  fst (load_data Missing) = empty_frame /\
  fst (load_data NoColumns) = empty_frame /\
  (forall n, fst (load_data (Ragged n)) = empty_frame) /\
  (forall columns lines l text,
     In l lines ->
     f_Timestamp l = TsText text \/ f_VAE_Score l = ScText text ->
     fst (load_data (Table columns lines)) = empty_frame) /\
  (forall src' e e',
     load_data_body src = Raise e -> load_data_body src' = Raise e' ->
     fst (load_data src) = fst (load_data src')).
Proof.
  split; [intros df H; unfold load_data; now rewrite H|].
  split; [apply load_data_raised|].
  split.
  { destruct (load_data_body src) as [df|e] eqn:E; [left; eauto|right].
    exists e. rewrite (load_data_raised src e E). repeat split. }
  split; [reflexivity|]. split; [reflexivity|]. split; [reflexivity|].
  split.
  - intros columns lines l text Hin [H|H];
      [destruct (bad_timestamp_raises columns lines l text Hin H) as [e He]
      |destruct (bad_score_raises columns lines l text Hin H) as [e He]];
      now rewrite (load_data_raised _ e He).
  - intros src' e e' H H'.
    now rewrite (load_data_raised _ _ H), (load_data_raised _ _ H').
Qed.

Lemma cached_load_data_stale (now : Z) (st : State) :
  stale now st ->
  cached_load_data now st =
  (load_data (file st), mkState (file st) (Some (now, load_data (file st)))).
Proof.
  unfold stale, cached_load_data.
  destruct (cache st) as [[stored result]|]; [|reflexivity].
  intros H. replace (now <? stored + seconds REFRESH_INTERVAL)%Z with false;
    [reflexivity|]. symmetry. apply Z.ltb_ge. assumption.
Qed.

(** C3 (as the code has it): when a line of the file has a non-numeric
    score, the load that reads it raises inside [load_data], which
    returns the empty frame with the exception as a message; the run of
    [main] then publishes no frame and no metrics, only the messages, and
    the cache entry becomes the empty frame: nothing of an earlier load is
    kept. *)
Theorem failed_load_publishes_nothing
        (now : Z) (w : Widgets) (st : State)
        (columns : list string) (lines : list Line) (l : Line) (text : string) :
  file st = Table columns lines ->
  In l lines -> f_VAE_Score l = ScText text ->
  stale now st ->
  exists e,
    load_data (file st) = (empty_frame, [Error_loading_data e]) /\
    main now w st =
      (Waiting [Error_loading_data e; No_data_available],
       mkState (file st)
               (Some (now, (empty_frame, [Error_loading_data e])))) /\
    published_frame (fst (main now w st)) = None /\
    published_metrics (fst (main now w st)) = None.
Proof.
  intros Hf Hin Hs Hstale.
  destruct (bad_score_raises columns lines l text Hin Hs) as [e He].
  exists e. rewrite Hf.
  pose proof (load_data_raised _ _ He) as Hl.
  assert (Hm : main now w st =
    (Waiting [Error_loading_data e; No_data_available],
     mkState (Table columns lines)
             (Some (now, (empty_frame, [Error_loading_data e]))))).
  { unfold main. rewrite Hf. cbn [initialize_sample_data].
    rewrite cached_load_data_stale by exact Hstale.
    cbn [file]. rewrite Hl. reflexivity. }
  rewrite Hm. repeat split; assumption.
Qed.

Lemma failed_load_publishes_nothing_witness :
  exists e,
    load_data bad_file = (empty_frame, [Error_loading_data e]) /\
    second_run =
      (Waiting [Error_loading_data e; No_data_available],
       mkState bad_file
               (Some (10000000000%Z, (empty_frame, [Error_loading_data e])))) /\
    published_frame (fst second_run) = None /\
    published_metrics (fst second_run) = None.
Proof.
  apply (failed_load_publishes_nothing 10000000000 all_widgets
           (mkState bad_file (cache (snd first_run)))
           alert_columns
           [ sample_line 1000000000 0 310.58 1;
             sample_line 2000000000 1 311.25 1;
             mkLine (TsInstant 3000000000) 2 (ScText "abc") 1 ]
           (mkLine (TsInstant 3000000000) 2 (ScText "abc") 1) "abc").
  - reflexivity.
  - right; right; left; reflexivity.
  - reflexivity.
  - vm_compute. discriminate.
Defined.

(** C3, the claim on two runs: the first run publishes a frame of two
    alerts and their metrics; the second run, whose load meets the
    non-numeric score, returns an empty frame instead of an error,
    publishes neither the earlier frame nor the earlier metrics, and
    leaves the empty frame in the cache. *)
Lemma failed_load_counterexample :
  published_frame (fst first_run) =
    Some [ mkRow (Some 2000000000%Z) 1%Z 311.25%float 1%Z (Some High);
           mkRow (Some 1000000000%Z) 0%Z 310.58%float 1%Z (Some Medium) ] /\
  published_metrics (fst first_run) <> None /\
  load_data bad_file = (empty_frame, [Error_loading_data (TypeError "abc")]) /\
  published_frame (fst second_run) = None /\
  published_metrics (fst second_run) = None /\
  published_frame (fst second_run) <> published_frame (fst first_run) /\
  cache (snd second_run) =
    Some (10000000000%Z,
          (empty_frame, [Error_loading_data (TypeError "abc")])).
Proof.
  repeat split; try reflexivity; discriminate.
Qed.

(** * Further properties of the code *)

(** ** [initialize_sample_data] and the file *)

Lemma cached_load_data_file (now : Z) (st : State) :
  file (snd (cached_load_data now st)) = file st.
Proof.
  unfold cached_load_data. destruct (cache st) as [[stored result]|];
    [destruct (now <? stored + seconds REFRESH_INTERVAL)%Z|]; reflexivity.
Qed.

(** X1: [initialize_sample_data] leaves an existing file as it is,
    whatever it holds, and writes the sample only when there is no file;
    doing it twice is doing it once.  It is the only thing a run of
    [main] does to the file. *)
Theorem initialize_sample_data_keeps_file (src : Source) :
  initialize_sample_data src <> Missing /\
  (src <> Missing -> initialize_sample_data src = src) /\
  (src = Missing -> initialize_sample_data src = SAMPLE_DATA) /\
  initialize_sample_data (initialize_sample_data src)
  = initialize_sample_data src /\
  (forall now w st,
     file st = src ->
     file (snd (main now w st)) = initialize_sample_data src).
Proof.
  split; [destruct src; discriminate|].
  split; [destruct src; intros H; try reflexivity; now elim H|].
  split; [intros ->; reflexivity|].
  split; [destruct src; reflexivity|].
  intros now w st <-. unfold main.
  pose proof (cached_load_data_file now
                (mkState (initialize_sample_data (file st)) (cache st))) as H.
  destruct (cached_load_data now _) as [[df messages] st']. cbn in H.
  destruct (empty df); cbn; exact H.
Qed.

(** ** Column names *)

Lemma rstrip_rstrip (s : string) : rstrip (rstrip s) = rstrip s.
Proof.
  induction s as [|c s IH]; cbn; [reflexivity|].
  destruct (rstrip s) as [|d r] eqn:E.
  - destruct (is_space c) eqn:Hc; cbn; [reflexivity|]. rewrite Hc. reflexivity.
  - cbn. cbn in IH. rewrite IH. reflexivity.
Qed.

Lemma lstrip_lstrip (s : string) : lstrip (lstrip s) = lstrip s.
Proof.
  induction s as [|c s IH]; cbn; [reflexivity|].
  destruct (is_space c) eqn:Hc; [assumption|]. cbn. rewrite Hc. reflexivity.
Qed.

Lemma lstrip_length (s : string) :
  (String.length (lstrip s) <= String.length s)%nat.
Proof.
  induction s as [|c s IH]; cbn; [lia|]. destruct (is_space c); cbn; lia.
Qed.

Lemma lstrip_rstrip (s : string) :
  lstrip s = s -> lstrip (rstrip s) = rstrip s.
Proof.
  destruct s as [|c s]; [reflexivity|]. cbn.
  destruct (is_space c) eqn:Hc.
  - intros H. exfalso. pose proof (lstrip_length s) as Hl.
    rewrite H in Hl. cbn in Hl. lia.
  - intros _. destruct (rstrip s); cbn; rewrite Hc; reflexivity.
Qed.

Lemma strip_strip (s : string) : strip (strip s) = strip s.
Proof.
  unfold strip.
  rewrite (lstrip_rstrip (lstrip s)) by apply lstrip_lstrip.
  apply rstrip_rstrip.
Qed.

Lemma replaced_not_space (c : ascii) :
  is_space (if Ascii.eqb c " "%char then "_"%char else c)
  = is_space c && negb (Ascii.eqb c " "%char).
Proof.
  destruct (Ascii.eqb c " "%char) eqn:E.
  - apply Ascii.eqb_eq in E. subst. reflexivity.
  - rewrite andb_true_r. reflexivity.
Qed.

Lemma lstrip_replace_spaces (s : string) :
  lstrip s = s -> lstrip (replace_spaces s) = replace_spaces s.
Proof.
  destruct s as [|c s]; [reflexivity|]. cbn.
  rewrite replaced_not_space.
  destruct (is_space c) eqn:Hc; [|reflexivity].
  intros H. exfalso. pose proof (lstrip_length s) as Hl.
  rewrite H in Hl. cbn in Hl. lia.
Qed.

Lemma rstrip_replace_spaces (s : string) :
  rstrip s = s -> rstrip (replace_spaces s) = replace_spaces s.
Proof.
  induction s as [|c s IH]; [reflexivity|]. cbn.
  destruct (rstrip s) as [|d r] eqn:E.
  - destruct (is_space c) eqn:Hc; [discriminate|].
    intros [= <-]. cbn. rewrite replaced_not_space, Hc. reflexivity.
  - intros [= Hs]. rewrite IH by assumption.
    rewrite <- Hs. cbn. reflexivity.
Qed.

Lemma replace_spaces_twice (s : string) :
  replace_spaces (replace_spaces s) = replace_spaces s.
Proof.
  induction s as [|c s IH]; cbn; [reflexivity|]. rewrite IH.
  destruct (Ascii.eqb c " "%char) eqn:E; [reflexivity|]. rewrite E. reflexivity.
Qed.

Lemma replace_spaces_no_space (s : string) :
  ~ In " "%char (list_ascii_of_string (replace_spaces s)).
Proof.
  induction s as [|c s IH]; cbn; [tauto|].
  intros [H|H]; [|tauto].
  destruct (Ascii.eqb c " "%char) eqn:E; [discriminate|].
  subst. rewrite Ascii.eqb_refl in E. discriminate.
Qed.

Lemma rstrip_blank (s : string) : blank s -> rstrip s = EmptyString.
Proof.
  unfold blank. induction s as [|c s IH]; cbn; [reflexivity|].
  intros H. inversion H as [|? ? Hc Hs]; subst.
  rewrite (IH Hs), Hc. reflexivity.
Qed.

Lemma lstrip_blank (s : string) : blank s -> lstrip s = EmptyString.
Proof.
  unfold blank. induction s as [|c s IH]; cbn; [reflexivity|].
  intros H. inversion H as [|? ? Hc Hs]; subst. rewrite Hc. auto.
Qed.

Lemma lstrip_blank_app (pre s : string) :
  blank pre -> lstrip (pre ++ s) = lstrip s.
Proof.
  unfold blank. induction pre as [|c pre IH]; cbn; [reflexivity|].
  intros H. inversion H as [|? ? Hc Hs]; subst. rewrite Hc. auto.
Qed.

Lemma rstrip_app_blank (s post : string) :
  blank post -> rstrip (s ++ post) = rstrip s.
Proof.
  intros Hb. induction s as [|c s IH]; cbn; [now apply rstrip_blank|].
  rewrite IH. reflexivity.
Qed.

Lemma strip_app_blank (s post : string) :
  blank post -> strip (s ++ post) = strip s.
Proof.
  intros Hb. unfold strip. induction s as [|c s IH]; cbn.
  - rewrite (lstrip_blank post Hb). reflexivity.
  - destruct (is_space c); [assumption|].
    change (String c (s ++ post)) with (String c s ++ post)%string.
    now apply rstrip_app_blank.
Qed.

(** X2: cleaning a column name ignores white space around it, leaves no
    space in it, and changes nothing when applied again, so a header
    cell that differs from a column name by surrounding white space or
    by spaces for underscores names that column. *)
Theorem clean_column_name_normal (name pre post : string) :
  blank pre -> blank post ->
  clean_column_name (pre ++ name ++ post) = clean_column_name name /\
  clean_column_name (clean_column_name name) = clean_column_name name /\
  ~ In " "%char (list_ascii_of_string (clean_column_name name)) /\
  strip (clean_column_name name) = clean_column_name name.
Proof.
  intros Hpre Hpost.
  assert (Hfix : strip (clean_column_name name) = clean_column_name name).
  { unfold clean_column_name, strip.
    rewrite lstrip_replace_spaces.
    - apply rstrip_replace_spaces. apply rstrip_rstrip.
    - apply lstrip_rstrip, lstrip_lstrip. }
  split; [|split; [|split]].
  - unfold clean_column_name. f_equal. unfold strip.
    rewrite lstrip_blank_app by assumption.
    apply (strip_app_blank name post Hpost).
  - unfold clean_column_name at 1. rewrite Hfix.
    unfold clean_column_name. apply replace_spaces_twice.
  - apply replace_spaces_no_space.
  - exact Hfix.
Qed.

Lemma clean_column_name_normal_witness :
  clean_column_name ("  " ++ "VAE Score" ++ " ")%string
  = clean_column_name "VAE Score" /\
  clean_column_name "VAE Score" = "VAE_Score"%string.
Proof.
  split; [|reflexivity].
  apply (clean_column_name_normal "VAE Score" "  " " ");
    repeat constructor.
Defined.

(** ** Loads that succeed *)









(** ** Time ranges *)

Lemma mask_with_time (f : Filters) (r : Row) :
  mask f r = true -> exists t, Timestamp r = Some t.
Proof.
  unfold mask. rewrite !andb_true_iff. intros (((H & _) & _) & _).
  destruct (Timestamp r) as [t|]; [eauto|discriminate].
Qed.

Lemma filter_drops {A : Type} (p : A -> bool) (l : list A) :
  Exists (fun x => p x = false) l ->
  (List.length (filter p l) < List.length l)%nat.
Proof.
  induction 1 as [x l Hx|x l _ IH]; cbn.
  - rewrite Hx. pose proof (filter_length_le p l). lia.
  - destruct (p x); cbn; lia.
Qed.

(** X5: a row whose timestamp is blank ([NaT]) is in no filtered frame,
    whatever the filter values; under "All time" too, although it counts
    in the total. *)
Theorem blank_timestamp_never_shown (r : Row) (df : DataFrame) (f : Filters) :
  Timestamp r = NaT ->
  ~ In r (filtered_df df f) /\
  (forall now w, ~ In r (shown now df (with_time_range w All_time))) /\
  (In r df -> (List.length (filtered_df df f) < List.length df)%nat).
Proof.
  intros Hnat.
  assert (Hno : forall g, ~ In r (filtered_df df g)).
  { intros g H. apply filtered_df_In in H. destruct H as (_ & Hm & _).
    apply mask_with_time in Hm. destruct Hm as [t Ht].
    unfold NaT in Hnat. congruence. }
  split; [apply Hno|]. split; [intros now w; apply Hno|].
  intros Hin. rewrite filtered_df_filter.
  apply filter_drops. apply Exists_exists. exists r. split; [assumption|].
  destruct (mask f r && label_mask (label_filter f) r) eqn:E; [|reflexivity].
  exfalso. apply (Hno f). apply filtered_df_In.
  apply andb_true_iff in E. tauto.
Qed.

Lemma blank_timestamp_never_shown_witness :
  ~ In (mkRow NaT 7%Z 311.5%float 1%Z (Some High))
       (filtered_df
          [mkRow NaT 7%Z 311.5%float 1%Z (Some High)]
          (mkFilters NaT 0%float infinity every_severity All)).
Proof.
  apply (blank_timestamp_never_shown
           (mkRow NaT 7%Z 311.5%float 1%Z (Some High))
           [mkRow NaT 7%Z 311.5%float 1%Z (Some High)]
           (mkFilters NaT 0%float infinity every_severity All) eq_refl).
Defined.

Lemma min_timestamp_le (df : DataFrame) (r : Row) (t : Z) :
  In r df -> Timestamp r = Some t ->
  exists m, min_timestamp df = Some m /\ (m <= t)%Z.
Proof.
  induction df as [|r' df IH]; cbn; intros Hin Ht; [contradiction|].
  destruct Hin as [->|Hin].
  - rewrite Ht. destruct (min_timestamp df) as [b|];
      eexists; (split; [reflexivity|]); lia.
  - destruct (IH Hin Ht) as (m & -> & Hm).
    destruct (Timestamp r') as [a|]; eexists; (split; [reflexivity|]); lia.
Qed.

Lemma all_time_cutoff (now : Z) (df : DataFrame) (r : Row) (t : Z) :
  In r df -> Timestamp r = Some t ->
  ge_datetime (Timestamp r) (resolve_cutoff now df All_time) = true.
Proof.
  intros Hin Ht. cbn. destruct (min_timestamp_le df r t Hin Ht) as (m & -> & Hm).
  rewrite Ht. cbn. apply Z.leb_le. assumption.
Qed.

(** X6: under "All time" the cut-off is the earliest timestamp of the
    frame, so the time test removes no dated row: a row is shown exactly
    when it has a timestamp and passes the score range, the severity
    selection and the label choice. *)
Theorem all_time_shows_every_dated_row
        (now : Z) (df : DataFrame) (w : Widgets) (r : Row) :
  In r (shown now df (with_time_range w All_time)) <->
  In r df /\
  (exists t, Timestamp r = Some t) /\
  (fst (w_score_range w) <=? VAE_Score r)%float = true /\
  (VAE_Score r <=? snd (w_score_range w))%float = true /\
  isin (Severity_ r) (w_severity w) = true /\
  label_mask (w_label w) r = true.
Proof.
  unfold shown. rewrite filtered_df_In. unfold mask.
  cbn [filters_of with_time_range cutoff min_score max_score severity_filter
       label_filter w_time_range w_score_range w_severity w_label].
  rewrite !andb_true_iff. split.
  - intros (Hin & (((Ht & H1) & H2) & H3) & H4).
    repeat split; try assumption.
    destruct (Timestamp r) as [t|]; [eauto|discriminate].
  - intros (Hin & [t Ht] & H1 & H2 & H3 & H4).
    repeat split; try assumption.
    apply (all_time_cutoff now df r t Hin Ht).
Qed.

Lemma window_cutoffs (now : Z) (df : DataFrame) (t1 t2 : TimeRange)
      (r : Row) :
  (time_range_rank t1 <= time_range_rank t2)%nat -> In r df ->
  ge_datetime (Timestamp r) (resolve_cutoff now df t1) = true ->
  ge_datetime (Timestamp r) (resolve_cutoff now df t2) = true.
Proof.
  intros Hrank Hin H.
  destruct (Timestamp r) as [t|] eqn:Ht; [|discriminate].
  destruct t2; try (destruct t1; cbn in Hrank; try lia; cbn in *;
    unfold hours, minutes in *; rewrite Z.leb_le in *; lia).
  destruct t1; rewrite <- Ht; apply (all_time_cutoff now df r t Hin Ht).
Qed.

(** X7: a longer time range never hides a row that a shorter one shows:
    with the other widgets unchanged, the rows shown for "Last 15
    minutes" are among those for "Last hour", those among "Last 6
    hours", "Last 24 hours" and "All time", in the same order. *)
Theorem longer_time_range_shows_more
        (now : Z) (df : DataFrame) (w : Widgets) (t1 t2 : TimeRange) :
  (time_range_rank t1 <= time_range_rank t2)%nat ->
  subsequence (shown now df (with_time_range w t1))
              (shown now df (with_time_range w t2)) /\
  (List.length (shown now df (with_time_range w t1))
   <= List.length (shown now df (with_time_range w t2)))%nat.
Proof.
  intros Hrank.
  assert (Hs : subsequence (shown now df (with_time_range w t1))
                           (shown now df (with_time_range w t2))).
  { unfold shown. rewrite !filtered_df_filter. apply filter_mono.
    intros r Hin. unfold mask.
    cbn [filters_of with_time_range cutoff min_score max_score
         severity_filter label_filter w_time_range w_score_range w_severity
         w_label].
    rewrite !andb_true_iff. intros ((((Ht & H1) & H2) & H3) & H4).
    repeat split; try assumption.
    eapply window_cutoffs; eassumption. }
  split; [assumption|]. apply subsequence_length. assumption.
Qed.

Lemma longer_time_range_shows_more_witness :
  (List.length (shown 4000 three_alerts
                  (mkWidgets Last_hour (0, 312)%float every_severity All))
   <= List.length (shown 4000 three_alerts
                     (mkWidgets All_time (0, 312)%float every_severity All)))%nat.
Proof.
  apply (longer_time_range_shows_more 4000 three_alerts
           (mkWidgets Last_hour (0, 312)%float every_severity All)
           Last_hour All_time).
  cbn. lia.
Defined.

(** ** The latest alert *)

Lemma not_before_refl (r : Row) : not_before r r = true.
Proof. unfold not_before. destruct (Timestamp r); [apply Z.leb_refl|reflexivity]. Qed.

(** X8: on a frame that is latest first, the "Latest Alert" metric is a
    row of the filtered frame whose timestamp is the greatest among the
    filtered rows. *)
Theorem latest_alert_is_most_recent
        (df : DataFrame) (f : Filters) (latest : Row) :
  descending df ->
  Latest_Alert (metrics df (filtered_df df f)) = Some latest ->
  In latest (filtered_df df f) /\
  exists t, Timestamp latest = Some t /\
    forall r t', In r (filtered_df df f) -> Timestamp r = Some t' ->
                 (t' <= t)%Z.
Proof.
  intros Hdesc Hlatest.
  assert (Hd : descending (filtered_df df f)).
  { eapply subsequence_descending; [|exact Hdesc].
    unfold filtered_df.
    eapply subsequence_trans; apply filter_subsequence. }
  unfold metrics in Hlatest. cbn [Latest_Alert] in Hlatest.
  destruct (filtered_df df f) as [|r0 rest] eqn:E; [discriminate|].
  cbn in Hlatest. injection Hlatest as <-.
  assert (Hin : In r0 (filtered_df df f)) by (rewrite E; left; reflexivity).
  split; [left; reflexivity|].
  apply filtered_df_In in Hin. destruct Hin as (_ & Hm & _).
  apply mask_with_time in Hm. destruct Hm as [t Ht].
  exists t. split; [assumption|]. intros r t' Hr Hr'.
  inversion Hd as [|? ? _ Hall]; subst.
  destruct Hr as [<-|Hr]; [rewrite Ht in Hr'; injection Hr' as <-; lia|].
  rewrite Forall_forall in Hall. specialize (Hall r Hr).
  unfold not_before in Hall. rewrite Ht, Hr' in Hall.
  now apply Z.leb_le.
Qed.

Lemma latest_alert_is_most_recent_witness :
  In (mkRow (Some 3000%Z) 2%Z 311.5%float 1%Z (Some High))
     (filtered_df three_alerts
        (mkFilters (Some 0%Z) 310%float 312%float every_severity All)).
Proof.
  apply (latest_alert_is_most_recent three_alerts
           (mkFilters (Some 0%Z) 310%float 312%float every_severity All)
           (mkRow (Some 3000%Z) 2%Z 311.5%float 1%Z (Some High))).
  - repeat constructor.
  - reflexivity.
Defined.

(** ** Filters composed *)

(** X9: filtering a filtered frame keeps the rows that pass both
    filters; the order of the two filters does not matter, and filtering
    twice with the same values changes nothing. *)
Theorem filtered_df_compose (df : DataFrame) (f g : Filters) :
  filtered_df (filtered_df df f) g = filtered_df (filtered_df df g) f /\
  filtered_df (filtered_df df f) f = filtered_df df f /\
  (forall r, In r (filtered_df (filtered_df df f) g) <->
             In r (filtered_df df f) /\ In r (filtered_df df g)).
Proof.
  split; [|split].
  - rewrite !filtered_df_filter, !filter_filter.
    apply filter_ext_Forall, Forall_forall. intros r _. apply andb_comm.
  - rewrite !filtered_df_filter, !filter_filter.
    apply filter_ext_Forall, Forall_forall. intros r _. apply andb_diag.
  - intros r. rewrite !filtered_df_In. tauto.
Qed.

(** ** The severity multiselect *)

Lemma unique_from_In (seen cells : list category) (c : category) :
  In c (unique_from seen cells) <-> In c cells /\ ~ In c seen.
Proof.
  revert seen. induction cells as [|x cells IH]; intros seen; cbn; [tauto|].
  destruct (existsb (category_eqb x) seen) eqn:E.
  - rewrite IH. fold (isin x seen) in E. apply isin_In in E.
    split; [tauto|]. intros [[->|H] Hn]; [contradiction|tauto].
  - assert (Hx : ~ In x seen).
    { intros H. apply isin_In in H. unfold isin in H. congruence. }
    cbn. rewrite IH. cbn. split.
    + intros [->|[H Hn]]; [tauto|]. split; [tauto|]. intros H'. apply Hn. tauto.
    + intros [[->|H] Hn]; [tauto|].
      destruct (category_eqb x c) eqn:Exc.
      * apply category_eqb_eq in Exc. tauto.
      * right. split; [assumption|]. intros [->|H']; [|contradiction].
        assert (category_eqb c c = true) by now apply category_eqb_eq.
        congruence.
Qed.

Lemma unique_from_NoDup (seen cells : list category) :
  NoDup (unique_from seen cells).
Proof.
  revert seen. induction cells as [|x cells IH]; intros seen; cbn;
    [constructor|].
  destruct (existsb (category_eqb x) seen); [apply IH|].
  constructor; [|apply IH].
  rewrite unique_from_In. cbn. tauto.
Qed.

(** X10: the default selection of the severity multiselect lists every
    severity of the frame once, the missing value included, so it hides no
    row: with it the filter is the time, score and label tests alone. *)
Theorem default_severity_hides_nothing (df : DataFrame) (f : Filters) :
  NoDup (severity_options df) /\
  (forall c, In c (severity_options df) <-> exists r, In r df /\ Severity_ r = c) /\
  (forall r, In r (filtered_df df (with_default_severity f df)) <->
     In r df /\
     ge_datetime (Timestamp r) (cutoff f) = true /\
     (min_score f <=? VAE_Score r)%float = true /\
     (VAE_Score r <=? max_score f)%float = true /\
     label_mask (label_filter f) r = true).
Proof.
  assert (Hopt : forall c, In c (severity_options df) <->
                           exists r, In r df /\ Severity_ r = c).
  { intros c. unfold severity_options, unique.
    rewrite unique_from_In, in_map_iff. cbn. split.
    - intros [(r & Hr & Hin) _]. eauto.
    - intros (r & Hin & Hr). split; [eauto|tauto]. }
  split; [apply unique_from_NoDup|]. split; [exact Hopt|].
  intros r. rewrite filtered_df_In. unfold mask.
  cbn [with_default_severity cutoff min_score max_score severity_filter
       label_filter].
  rewrite !andb_true_iff, isin_In, Hopt. split.
  - tauto.
  - intros (Hin & H1 & H2 & H3 & H4). repeat split; eauto.
Qed.

(** ** The label choice *)

Lemma label_counts (l : DataFrame) :
  (List.length (filter (label_mask Normal_0) l)
   + List.length (filter (label_mask Anomaly_1) l)
   + List.length (filter other_label l))%nat
  = List.length l.
Proof.
  induction l as [|r l IH]; [reflexivity|].
  cbn [filter label_mask]. unfold other_label at 1.
  destruct (GNN_Label r =? 0)%Z eqn:E0; destruct (GNN_Label r =? 1)%Z eqn:E1;
    cbn [negb andb List.length]; lia.
Qed.

(** X11: with the other widgets unchanged, "Normal (0)" and "Anomaly
    (1)" show disjoint parts of what "All" shows; a row whose label is
    neither 0 nor 1 is shown under "All" only, so the two counts add up to
    the count under "All" exactly when no shown row has such a label. *)
Theorem label_choices_partition (df : DataFrame) (f : Filters) :
  (forall r, ~ (In r (filtered_df df (with_label f Normal_0)) /\
                In r (filtered_df df (with_label f Anomaly_1)))) /\
  subsequence (filtered_df df (with_label f Normal_0))
              (filtered_df df (with_label f All)) /\
  subsequence (filtered_df df (with_label f Anomaly_1))
              (filtered_df df (with_label f All)) /\
  (List.length (filtered_df df (with_label f Normal_0))
   + List.length (filtered_df df (with_label f Anomaly_1))
   + List.length (filter other_label (filtered_df df (with_label f All))))%nat
  = List.length (filtered_df df (with_label f All)) /\
  (forall r, other_label r = true ->
     ~ In r (filtered_df df (with_label f Normal_0)) /\
     ~ In r (filtered_df df (with_label f Anomaly_1))).
Proof.
  assert (Hall : filtered_df df (with_label f All) = filter (mask f) df).
  { unfold filtered_df. cbn [with_label label_filter label_mask].
    change (mask (with_label f All)) with (mask f).
    apply filter_all, Forall_forall. reflexivity. }
  assert (Hl : forall l, filtered_df df (with_label f l)
                         = filter (label_mask l) (filter (mask f) df))
    by reflexivity.
  split; [|split; [|split; [|split]]].
  - intros r [H0 H1]. rewrite Hl in H0, H1.
    apply filter_In in H0. apply filter_In in H1.
    destruct H0 as [_ H0], H1 as [_ H1]. cbn in H0, H1.
    apply Z.eqb_eq in H0. apply Z.eqb_eq in H1. lia.
  - rewrite Hall, Hl. apply filter_subsequence.
  - rewrite Hall, Hl. apply filter_subsequence.
  - rewrite Hall, !Hl. apply label_counts.
  - intros r Ho. unfold other_label in Ho. apply andb_true_iff in Ho.
    destruct Ho as [Ho0 Ho1]. rewrite !Hl. split; intros H;
      apply filter_In in H; destruct H as [_ H]; cbn in H;
      rewrite H in *; discriminate.
Qed.

(** X12: the table colours a row by its label alone: every cell of a
    row shown under "Anomaly (1)" is red, every cell of a row shown under
    "Normal (0)" is green, and a row with any label other than 1 is green
    as well. *)
Theorem color_alert_follows_label (df : DataFrame) (f : Filters) (r : Row) :
  (In r (filtered_df df (with_label f Anomaly_1)) ->
     color_alert r = repeat "background-color: #FFCCCC"%string 6) /\
  (In r (filtered_df df (with_label f Normal_0)) ->
     color_alert r = repeat "background-color: #CCFFCC"%string 6) /\
  (GNN_Label r <> 1%Z ->
     color_alert r = repeat "background-color: #CCFFCC"%string 6) /\
  List.length (color_alert r) = List.length display_cols.
Proof.
  unfold color_alert. split; [|split; [|split]].
  - intros H. apply filtered_df_In in H. destruct H as (_ & _ & H).
    cbn in H. rewrite H. reflexivity.
  - intros H. apply filtered_df_In in H. destruct H as (_ & _ & H).
    cbn in H. apply Z.eqb_eq in H. rewrite H. reflexivity.
  - intros H. apply Z.eqb_neq in H. rewrite H. reflexivity.
  - apply length_map.
Qed.

(** ** The cache of [load_data] *)

Lemma cached_load_data_fresh (now : Z) (st : State) :
  fresh now st ->
  exists stored result,
    cache st = Some (stored, result) /\
    cached_load_data now st = (result, st).
Proof.
  unfold fresh, cached_load_data.
  destruct (cache st) as [[stored result]|]; [|contradiction].
  intros H. exists stored, result. split; [reflexivity|].
  replace (now <? stored + seconds REFRESH_INTERVAL)%Z with true;
    [reflexivity|]. symmetry. now apply Z.ltb_lt.
Qed.

(** X13: while the cache entry is younger than five seconds, a run does
    not read the file: it publishes the same page whatever the file now
    holds (changed, broken or deleted), and leaves the entry as it is. *)
Theorem fresh_cache_hides_the_file
        (now : Z) (w : Widgets) (st : State) (src : Source) :
  fresh now st ->
  fst (main now w (mkState src (cache st))) = fst (main now w st) /\
  cache (snd (main now w st)) = cache st.
Proof.
  intros Hf. unfold main.
  destruct (cached_load_data_fresh now
              (mkState (initialize_sample_data (file st)) (cache st)) Hf)
    as (stored & result & Hc & ->).
  destruct (cached_load_data_fresh now
              (mkState (initialize_sample_data
                          (file (mkState src (cache st))))
                       (cache (mkState src (cache st)))) Hf)
    as (stored' & result' & Hc' & ->).
  cbn [cache] in Hc, Hc'. rewrite Hc in Hc'. injection Hc' as <- <-.
  destruct result as [df messages].
  destruct (empty df); cbn; split; reflexivity.
Qed.

Lemma fresh_cache_hides_the_file_witness :
  fst (main 5000000000 all_widgets (mkState bad_file (cache (snd first_run))))
  = fst (main 5000000000 all_widgets (snd first_run)).
Proof.
  apply (fresh_cache_hides_the_file 5000000000 all_widgets (snd first_run)
           bad_file).
  vm_compute. reflexivity.
Defined.

Lemma main_stale (now : Z) (w : Widgets) (st : State) :
  stale now st ->
  cache (snd (main now w st))
  = Some (now, load_data (initialize_sample_data (file st))) /\
  fst (main now w st)
  = fst (main now w (mkState (file st) None)).
Proof.
  intros Hs. unfold main.
  rewrite (cached_load_data_stale now
             (mkState (initialize_sample_data (file st)) (cache st)) Hs).
  rewrite (cached_load_data_stale now
             (mkState (initialize_sample_data (file (mkState (file st) None)))
                      (cache (mkState (file st) None))) I).
  cbn [file cache].
  destruct (load_data (initialize_sample_data (file st))) as [df messages].
  destruct (empty df); cbn; split; reflexivity.
Qed.

(** X14: a failed load is cached like any other: for five seconds after
    a run whose load raised, every run shows the same error and "No data
    available", also when the file has been repaired meanwhile; the first
    run after that reads the file again. *)
Theorem failed_load_is_cached
        (t0 t1 : Z) (w w' : Widgets) (st : State) (e : Exception)
        (src : Source) :
  stale t0 st ->
  load_data_body (initialize_sample_data (file st)) = Raise e ->
  let st1 := mkState src (cache (snd (main t0 w st))) in
  ((t1 < t0 + seconds REFRESH_INTERVAL)%Z ->
     fst (main t1 w' st1)
     = Waiting [Error_loading_data e; No_data_available]) /\
  ((t0 + seconds REFRESH_INTERVAL <= t1)%Z ->
     fst (main t1 w' st1) = fst (main t1 w' (mkState src None))).
Proof.
  intros Hs He st1.
  destruct (main_stale t0 w st Hs) as [Hc _].
  rewrite (load_data_raised _ _ He) in Hc.
  split; intros Ht.
  - unfold main.
    destruct (cached_load_data_fresh t1
                (mkState (initialize_sample_data (file st1)) (cache st1)))
      as (stored & result & Hc1 & ->).
    { unfold fresh. cbn [cache st1]. rewrite Hc. exact Ht. }
    cbn [cache st1] in Hc1. rewrite Hc in Hc1. injection Hc1 as <- <-.
    reflexivity.
  - apply (main_stale t1 w' st1). unfold stale. cbn [cache st1].
    rewrite Hc. exact Ht.
Qed.

Lemma failed_load_is_cached_witness :
  fst (main 12000000000 all_widgets
         (mkState good_file
            (cache (snd (main 10000000000 all_widgets
                           (mkState bad_file None))))))
  = Waiting [Error_loading_data (TypeError "abc"); No_data_available].
Proof.
  apply (failed_load_is_cached 10000000000 12000000000 all_widgets
           all_widgets (mkState bad_file None) (TypeError "abc") good_file
           I eq_refl).
  vm_compute. reflexivity.
Defined.

(** ** What a run publishes *)







(** ** The bounds of the score slider *)

Lemma leb_refl (x : float) : is_nan x = false -> (x <=? x)%float = true.
Proof.
  intros H. destruct (not_nan_key x H) as [a Ha].
  apply leb_iff. exists a, a. repeat split; try assumption. right. reflexivity.
Qed.

Lemma ltb_leb (x y : float) :
  (x <? y)%float = true -> (x <=? y)%float = true.
Proof.
  rewrite ltb_iff, leb_iff. intros (a & b & Ha & Hb & Hlt).
  exists a, b. repeat split; try assumption. left. assumption.
Qed.

Lemma score_min_le (xs : list float) (x : float) :
  In x xs -> is_nan x = false -> (score_min xs <=? x)%float = true.
Proof.
  induction xs as [|y xs IH]; cbn; intros Hin Hx; [contradiction|].
  destruct (is_nan y) eqn:Hy.
  - destruct Hin as [->|Hin]; [congruence|auto].
  - destruct (is_nan (score_min xs)) eqn:Hm.
    + destruct Hin as [->|Hin]; [now apply leb_refl|].
      specialize (IH Hin Hx). apply leb_not_nan in IH. destruct IH. congruence.
    + destruct (y <? score_min xs)%float eqn:E.
      * destruct Hin as [->|Hin]; [now apply leb_refl|].
        eapply leb_trans; [apply ltb_leb; exact E|auto].
      * destruct Hin as [->|Hin]; [|auto].
        now apply (ltb_false_leb (score_min xs) x).
Qed.

Lemma score_max_ge (xs : list float) (x : float) :
  In x xs -> is_nan x = false -> (x <=? score_max xs)%float = true.
Proof.
  induction xs as [|y xs IH]; cbn; intros Hin Hx; [contradiction|].
  destruct (is_nan y) eqn:Hy.
  - destruct Hin as [->|Hin]; [congruence|auto].
  - destruct (is_nan (score_max xs)) eqn:Hm.
    + destruct Hin as [->|Hin]; [now apply leb_refl|].
      specialize (IH Hin Hx). apply leb_not_nan in IH. destruct IH. congruence.
    + destruct (score_max xs <? y)%float eqn:E.
      * destruct Hin as [->|Hin]; [now apply leb_refl|].
        eapply leb_trans; [auto|apply ltb_leb; exact E].
      * destruct Hin as [->|Hin]; [|auto].
        now apply (ltb_false_leb x (score_max xs)).
Qed.

(** X17: the bounds of the score slider are the least and the greatest
    number of the score column, so with the slider at its bounds the
    score test removes only the rows whose score is NaN: a row is shown
    exactly when its score is a number and it passes the time, severity
    and label tests. *)
Theorem full_score_range_keeps_numbers
        (df : DataFrame) (f : Filters) (r : Row) :
  In r (filtered_df df (with_full_score_range f df)) <->
  In r df /\
  is_nan (VAE_Score r) = false /\
  ge_datetime (Timestamp r) (cutoff f) = true /\
  isin (Severity_ r) (severity_filter f) = true /\
  label_mask (label_filter f) r = true.
Proof.
  rewrite filtered_df_In. unfold mask.
  cbn [with_full_score_range cutoff min_score max_score severity_filter
       label_filter].
  rewrite !andb_true_iff. split.
  - intros (Hin & (((Ht & H1) & H2) & H3) & H4).
    apply leb_not_nan in H1. tauto.
  - intros (Hin & Hn & Ht & H3 & H4).
    assert (Hs : In (VAE_Score r) (map VAE_Score df)) by now apply in_map.
    repeat split; try assumption.
    + now apply score_min_le.
    + now apply score_max_ge.
Qed.

(** ** Severity selection and scores *)

Lemma classify_edges (s : float) (v : Severity) :
  classify s = Some v ->
  (fst (bin_edges v) <? s)%float = true /\
  (s <=? snd (bin_edges v))%float = true.
Proof.
  destruct (bins_chain s) as (H1 & H2 & H3).
  rewrite classify_cases.
  destruct (is_nan s) eqn:Hn; [discriminate|].
  assert (Hinf : (s <=? infinity)%float = true).
  { rewrite (leb_edge s _ Hn) by reflexivity. now rewrite infinity_ltb. }
  destruct (312 <? s)%float eqn:E4; [intros [= <-]; cbn; auto|].
  destruct (311 <? s)%float eqn:E3;
    [intros [= <-]; cbn; rewrite (leb_edge s _ Hn), E4 by reflexivity; auto|].
  destruct (310 <? s)%float eqn:E2;
    [intros [= <-]; cbn; rewrite (leb_edge s _ Hn), E3 by reflexivity; auto|].
  destruct (0 <? s)%float eqn:E1; [|discriminate].
  intros [= <-]; cbn; rewrite (leb_edge s _ Hn), E2 by reflexivity; auto.
Qed.

(** X18: on a frame whose [Severity] column is derived from the scores,
    selecting a single severity level shows only rows whose score lies in
    that level's bin: above its lower edge and at most its upper edge. *)
Theorem severity_selection_bounds_scores
        (df : DataFrame) (f : Filters) (v : Severity) (r : Row) :
  derived df ->
  severity_filter f = [Some v] ->
  In r (filtered_df df f) ->
  (fst (bin_edges v) <? VAE_Score r)%float = true /\
  (VAE_Score r <=? snd (bin_edges v))%float = true /\
  Severity_ r = Some v.
Proof.
  intros Hd Hsel Hin. apply filtered_df_In in Hin.
  destruct Hin as (Hdf & Hm & _). unfold mask in Hm.
  rewrite !andb_true_iff, Hsel, isin_In in Hm.
  destruct Hm as (_ & [Hv|[]]).
  unfold derived in Hd. rewrite Forall_forall in Hd.
  rewrite (Hd r Hdf) in Hv. symmetry in Hv.
  destruct (classify_edges _ _ Hv) as [Hlo Hhi].
  rewrite (Hd r Hdf). auto.
Qed.

Lemma severity_selection_bounds_scores_witness :
  (311 <? 311.5)%float = true /\ (311.5 <=? 312)%float = true /\
  Some High = Some High.
Proof.
  apply (severity_selection_bounds_scores three_alerts
           (mkFilters (Some 0%Z) 0%float 400%float [Some High] All) High
           (mkRow (Some 3000%Z) 2%Z 311.5%float 1%Z (Some High))).
  - repeat constructor.
  - reflexivity.
  - left. reflexivity.
Defined.

(** ** The order of failures *)




